(** * PubMed Central client utilities (Utils/pubmed.py)

    A shallow embedding of the three operations of [Utils/pubmed.py]
    ([search_pmc], [get_pmc_metadata], [download_article_files]) together
    with the parts of the Python runtime they rely on: string methods,
    [xml.etree.ElementTree] elements and paths, JSON values, [datetime]
    arithmetic, and a file system indexed by path.

    Everything that comes from outside the program (HTTP responses, the
    outcome of parsing, of unpacking an archive, the order in which a
    directory is listed, the clock) is an input of the model. *)

From Stdlib Require Import ZArith Ascii String List Lia.
From stdpp Require Import base option list strings gmap fin_maps.

Local Open Scope string_scope.
Local Open Scope list_scope.
Set Warnings "-register-all".

(** ** Python values and control effects *)

Module Py.

(** The exception classes the program meets. [RequestException] covers
    every error raised by [requests.get] and by [raise_for_status]. *)
Inductive exn : Type :=
| RequestException (msg : string)
| ParseError
| KeyError (key : string)
| TypeError
| AttributeError
| OverflowError
| ValueError (msg : string)
| TarError (msg : string)
| OSError (msg : string).

(** The text an f-string shows for [{e}]. *)
Definition exn_str (e : exn) : string :=
  match e with
  | RequestException m => m
  | ParseError => "ParseError"
  | KeyError k => "'" +:+ k +:+ "'"
  | TypeError => "TypeError"
  | AttributeError => "AttributeError"
  | OverflowError => "date value out of range"
  | ValueError m => m
  | TarError m => m
  | OSError m => m
  end.

(** A computation either returns a value or raises. *)
Inductive outcome (A : Type) : Type :=
| Return (a : A)
| Raise (e : exn).
Arguments Return {A} a.
Arguments Raise {A} e.

#[global] Instance outcome_ret : MRet outcome := fun A a => Return a.
#[global] Instance outcome_bind : MBind outcome := fun A B k m =>
  match m with
  | Return a => k a
  | Raise e => Raise e
  end.

(** [str(x)] inside an f-string, for a value that is a string or [None]. *)
Definition fmt (o : option string) : string :=
  match o with
  | Some s => s
  | None => "None"
  end.

(** Strings are sequences of characters with code points below 256.
    [c.isspace()] on such a character: *)
Definition isspace (c : ascii) : bool :=
  let n := nat_of_ascii c in
  (((9 <=? n) && (n <=? 13)) || ((28 <=? n) && (n <=? 32))
   || (n =? 133) || (n =? 160))%nat.

(** [c.lower()] *)
Definition lower_char (c : ascii) : ascii :=
  let n := nat_of_ascii c in
  if (((65 <=? n) && (n <=? 90))
      || ((192 <=? n) && (n <=? 222) && negb (n =? 215)))%nat
  then ascii_of_nat (n + 32) else c.

Fixpoint lower (s : string) : string :=
  match s with
  | EmptyString => EmptyString
  | String c s' => String (lower_char c) (lower s')
  end.

(** [s.upper()] for a string of unaccented letters; the program applies
    it to ['pdf'] and ['xml'] only. *)
Fixpoint upper_ascii (s : string) : string :=
  match s with
  | EmptyString => EmptyString
  | String c s' =>
      let n := nat_of_ascii c in
      String (if ((97 <=? n) && (n <=? 122))%nat then ascii_of_nat (n - 32) else c)
             (upper_ascii s')
  end.

Fixpoint lstrip (s : string) : string :=
  match s with
  | EmptyString => EmptyString
  | String c s' => if isspace c then lstrip s' else s
  end.

Fixpoint rstrip (s : string) : string :=
  match s with
  | EmptyString => EmptyString
  | String c s' =>
      match rstrip s' with
      | EmptyString => if isspace c then EmptyString else String c EmptyString
      | r => String c r
      end
  end.

Definition strip (s : string) : string := rstrip (lstrip s).

Definition startswith (s p : string) : bool := String.prefix p s.

(** [s.endswith(suf)]: [suf] is [s] or ends a tail of [s]. *)
Fixpoint endswith (s suf : string) : bool :=
  bool_decide (s = suf)
  || match s with
     | EmptyString => false
     | String _ s' => endswith s' suf
     end.

(** ["".join(parts)] *)
Definition join_empty (parts : list string) : string :=
  fold_right String.append EmptyString parts.

(** [sep.join(parts)] *)
Fixpoint join (sep : string) (parts : list string) : string :=
  match parts with
  | [] => EmptyString
  | [p] => p
  | p :: rest => p +:+ sep +:+ join sep rest
  end.

(** [s.replace(old, new)] for a non-empty [old]: occurrences are replaced
    left to right and never overlap.  [skip] counts the characters of an
    occurrence that is being passed over. *)
Fixpoint replace_from (skip : nat) (old new s : string) : string :=
  match s with
  | EmptyString => EmptyString
  | String c s' =>
      match skip with
      | S k => replace_from k old new s'
      | O =>
          if String.prefix old s
          then new +:+ replace_from (String.length old - 1) old new s'
          else String c (replace_from 0 old new s')
      end
  end.

Definition replace (s old new : string) : string := replace_from 0 old new s.

End Py.

Export Py.

(** ** xml.etree.ElementTree *)

Module ET.

(** An element as [ElementTree] holds it: tag, attribute dictionary, the
    text before the first child, the text after the closing tag, and the
    child elements in document order. *)
Inductive Element : Type :=
  mkElement {
      tag : string;
      attrib : list (string * string);
      text : option string;
      tail : option string;
      children : list Element
    }.

(** [elem.get(key)] *)
Fixpoint lookup_attr (key : string) (kvs : list (string * string)) : option string :=
  match kvs with
  | [] => None
  | (k, v) :: rest => if bool_decide (k = key) then Some v else lookup_attr key rest
  end.

Definition get (e : Element) (key : string) : option string :=
  lookup_attr key (attrib e).

(** [bool(elem)]: an element is true exactly when it has children. *)
Definition truthy (e : Element) : bool :=
  match children e with
  | [] => false
  | _ :: _ => true
  end.

(** [elem.iter()]: the element, then its descendants, in document order. *)
Fixpoint iter (e : Element) : list Element :=
  e :: flat_map iter (children e).

Definition descendants (e : Element) : list Element :=
  flat_map iter (children e).

(** The three path shapes the program uses:
    [.//tag], [.//tag[@key='value']] and [tag]. *)
Inductive path : Type :=
| Descendant (t : string)
| DescendantAttr (t key value : string)
| Child (t : string).

Definition has_tag (t : string) (e : Element) : bool :=
  bool_decide (tag e = t).

Definition findall (e : Element) (p : path) : list Element :=
  match p with
  | Descendant t => List.filter (has_tag t) (descendants e)
  | DescendantAttr t key value =>
      List.filter (fun x => bool_decide (get x key = Some value))
                  (List.filter (has_tag t) (descendants e))
  | Child t => List.filter (has_tag t) (children e)
  end.

Definition find (e : Element) (p : path) : option Element :=
  head (findall e p).

(** [if t: yield t] *)
Definition fragment (o : option string) : list string :=
  match o with
  | Some (String c t) => [String c t]
  | _ => []
  end.

(** [elem.itertext()] *)
Fixpoint itertext (e : Element) : list string :=
  (fragment (text e)
   ++ flat_map (fun c => itertext c ++ fragment (tail c)) (children e))%list.

(** [a or b] on results of [find]. *)
Definition or_else (a b : option Element) : option Element :=
  match a with
  | Some e => if truthy e then a else b
  | None => b
  end.

End ET.

Export ET.

(** ** JSON values as [response.json()] returns them *)

Module Json.

Inductive value : Type :=
| JNull
| JBool (b : bool)
| JNum (literal : string)
| JStr (s : string)
| JList (items : list value)
| JDict (fields : gmap string value).

(** [v[key]] with a string key: a dictionary raises [KeyError] for a key
    it does not hold, every other value raises [TypeError]. *)
Definition getitem (v : value) (key : string) : outcome value :=
  match v with
  | JDict fields =>
      match fields !! key with
      | Some x => Return x
      | None => Raise (KeyError key)
      end
  | _ => Raise TypeError
  end.

End Json.

Export Json.

(** ** datetime: proleptic Gregorian dates *)

Module Datetime.

Local Open Scope Z_scope.

(** A [datetime] value; the time of day is carried along unchanged. *)
Record datetime : Type :=
  mkDatetime {
      year : Z;
      month : Z;
      day : Z;
      seconds_of_day : Z
    }.

Definition _is_leap (y : Z) : bool :=
  (y mod 4 =? 0) && (negb (y mod 100 =? 0) || (y mod 400 =? 0)).

Definition _DAYS_IN_MONTH (m : Z) : Z :=
  nth (Z.to_nat m) [-1; 31; 28; 31; 30; 31; 30; 31; 31; 30; 31; 30; 31] 0.

Definition _DAYS_BEFORE_MONTH (m : Z) : Z :=
  nth (Z.to_nat m) [-1; 0; 31; 59; 90; 120; 151; 181; 212; 243; 273; 304; 334] 0.

Definition _days_before_year (y : Z) : Z :=
  let y := y - 1 in y * 365 + y / 4 - y / 100 + y / 400.

Definition _days_in_month (y m : Z) : Z :=
  if (m =? 2) && _is_leap y then 29 else _DAYS_IN_MONTH m.

Definition _days_before_month (y m : Z) : Z :=
  _DAYS_BEFORE_MONTH m + (if (2 <? m) && _is_leap y then 1 else 0).

Definition _ymd2ord (y m d : Z) : Z :=
  _days_before_year y + _days_before_month y m + d.

Definition _DI400Y : Z := 146097.
Definition _DI100Y : Z := 36524.
Definition _DI4Y : Z := 1461.
Definition _MAXORDINAL : Z := 3652059.

Definition _ord2ymd (n : Z) : Z * Z * Z :=
  let n := n - 1 in
  let n400 := n / _DI400Y in
  let n := n mod _DI400Y in
  let y := n400 * 400 + 1 in
  let n100 := n / _DI100Y in
  let n := n mod _DI100Y in
  let n4 := n / _DI4Y in
  let n := n mod _DI4Y in
  let n1 := n / 365 in
  let n := n mod 365 in
  let y := y + n100 * 100 + n4 * 4 + n1 in
  if (n1 =? 4) || (n100 =? 4) then (y - 1, 12, 31)
  else
    let leapyear := (n1 =? 3) && (negb (n4 =? 24) || (n100 =? 3)) in
    let m := Z.shiftr (n + 50) 5 in
    let preceding :=
      _DAYS_BEFORE_MONTH m + (if (2 <? m) && leapyear then 1 else 0) in
    if n <? preceding then
      let m := m - 1 in
      let preceding :=
        preceding - (_DAYS_IN_MONTH m + (if (m =? 2) && leapyear then 1 else 0)) in
      (y, m, n - preceding + 1)
    else (y, m, n - preceding + 1).

Definition toordinal (d : datetime) : Z :=
  _ymd2ord (year d) (month d) (day d).

(** [d - timedelta(days=k)] *)
Definition sub_days (d : datetime) (k : Z) : outcome datetime :=
  let n := toordinal d - k in
  if (0 <? n) && (n <=? _MAXORDINAL) then
    let '(y, m, dd) := _ord2ymd n in
    Return (mkDatetime y m dd (seconds_of_day d))
  else Raise OverflowError.

(** What the constructor of [datetime] accepts as a date. *)
Definition valid (d : datetime) : Prop :=
  1 <= year d <= 9999 /\ 1 <= month d <= 12
  /\ 1 <= day d <= _days_in_month (year d) (month d).

Definition digit (n : Z) : ascii := ascii_of_nat (48 + Z.to_nat (n mod 10)).

Definition pad2 (n : Z) : string :=
  String (digit (n / 10)) (String (digit n) EmptyString).

Definition pad4 (n : Z) : string :=
  String (digit (n / 1000)) (String (digit (n / 100)) (pad2 n)).

(** [d.strftime("%Y/%m/%d")] *)
Definition strftime_ymd (d : datetime) : string :=
  (pad4 (year d) +:+ "/" +:+ pad2 (month d) +:+ "/" +:+ pad2 (day d))%string.

End Datetime.

Export Datetime.

(** ** The outside world and the program state *)

Module Sys.

(** A query-string value in a [params] dictionary. *)
Inductive param : Type :=
| PStr (s : string)
| PInt (n : Z)
| PNone.

Definition of_opt (o : option string) : param :=
  match o with
  | Some s => PStr s
  | None => PNone
  end.

Definition params : Type := list (string * param).

(** A [requests] response.  [http_error] is the message of the
    [HTTPError] that [raise_for_status] raises, when it raises one;
    [body_chunks] and [stream_error] describe [iter_content]: the chunks
    it yields and the error that ends the stream early, if any. *)
Record Response : Type :=
  mkResponse {
      http_error : option string;
      content : string;
      json : outcome Json.value;
      body_chunks : list string;
      stream_error : option exn
    }.

Definition raise_for_status (r : Response) : outcome unit :=
  match http_error r with
  | Some msg => Raise (RequestException msg)
  | None => Return tt
  end.

(** Regular files with their contents, and directories, by path. *)
Record FS : Type :=
  mkFS {
      files : gmap string string;
      dirs : gset string
    }.

(** What the program can observe and change: the file system, the lines
    printed so far (oldest first), the requests sent so far, and the
    local flag [downloaded_something] of [download_article_files]. *)
Record state : Type :=
  mkState {
      fs : FS;
      stdout : list string;
      sent : list (string * params);
      downloaded_something : bool
    }.

(** Inputs from outside the program.  [extractall archive dest] is
    [tarfile.open] on a file holding [archive] followed by
    [extractall(path=dest)].  [walk fs top] lists what [os.walk(top)]
    yields on the file system [fs], as pairs of a directory and the names
    of the regular files in it, the top directory first. *)
Record World : Type :=
  mkWorld {
      now : datetime;
      requests_get : string -> params -> outcome Response;
      fromstring : string -> option Element;
      extractall : string -> string -> FS -> outcome FS;
      walk : FS -> string -> list (string * list string)
    }.

(** Programs: state in, result or exception and state out. *)
Definition prog (A : Type) : Type := state -> outcome A * state.

#[global] Instance prog_ret : MRet prog := fun A a s => (Return a, s).
#[global] Instance prog_bind : MBind prog := fun A B k m s =>
  match m s with
  | (Return a, s') => k a s'
  | (Raise e, s') => (Raise e, s')
  end.

Definition lift {A} (o : outcome A) : prog A := fun s => (o, s).

Definition print (line : string) : prog unit := fun s =>
  (Return tt, mkState (fs s) (stdout s ++ [line]) (sent s) (downloaded_something s)).

(** [try: body  except <class> as e: handler]; [caught] recognises the
    exception class of the clause. *)
Definition try_except {A} (body : prog A) (caught : exn -> bool)
           (handler : exn -> prog A) : prog A := fun s =>
  match body s with
  | (Raise e, s') => if caught e then handler e s' else (Raise e, s')
  | r => r
  end.

Definition is_RequestException (e : exn) : bool :=
  match e with RequestException _ => true | _ => false end.
Definition is_KeyError (e : exn) : bool :=
  match e with KeyError _ => true | _ => false end.
Definition is_TarError (e : exn) : bool :=
  match e with TarError _ => true | _ => false end.
Definition is_Exception (e : exn) : bool := true.

(** [requests.get(url, params=...)]; the request is recorded. *)
Definition get_request (w : World) (url : string) (ps : params) : prog Response :=
  fun s =>
    (requests_get w url ps,
     mkState (fs s) (stdout s) (sent s ++ [(url, ps)]) (downloaded_something s)).

Definition with_fs (f : FS -> outcome FS) : prog unit := fun s =>
  match f (fs s) with
  | Return fs' => (Return tt, mkState fs' (stdout s) (sent s) (downloaded_something s))
  | Raise e => (Raise e, s)
  end.

Definition set_downloaded (b : bool) : prog unit := fun s =>
  (Return tt, mkState (fs s) (stdout s) (sent s) b).

Definition get_downloaded : prog bool := fun s =>
  (Return (downloaded_something s), s).

End Sys.

Export Sys.

(** ** search_pmc *)

Definition BASE_URL : string := "https://eutils.ncbi.nlm.nih.gov/entrez/eutils/".

(** Lines 18-23: the date range of the request. *)
Definition search_dates (w : World) (mindate maxdate : option string)
  : outcome (option string * option string) :=
  match mindate, maxdate with
  | None, None =>
      let end_date := now w in
      start_date ← sub_days end_date 15;
      mret (Some (strftime_ymd start_date), Some (strftime_ymd end_date))
  | _, _ => mret (mindate, maxdate)
  end.

(** Lines 25-33. *)
Definition search_params (term : string) (max_results : Z)
           (mindate maxdate : option string) : params :=
  [("db", PStr "pmc"); ("term", PStr term); ("retmode", PStr "json");
   ("retmax", PInt max_results); ("datetype", PStr "pdat");
   ("mindate", of_opt mindate); ("maxdate", of_opt maxdate)].

Definition search_pmc (w : World) (term : string) (max_results : Z)
           (mindate maxdate : option string) : prog Json.value :=
  let url := BASE_URL +:+ "esearch.fcgi" in
  '(mindate, maxdate) ← lift (search_dates w mindate maxdate);
  let ps := search_params term max_results mindate maxdate in
  response ← get_request w url ps;
  _ ← lift (raise_for_status response);
  data ← lift (json response);
  try_except
    (esearchresult ← lift (getitem data "esearchresult");
     id_list ← lift (getitem esearchresult "idlist");
     _ ← print ("Searching from " +:+ fmt mindate +:+ " to " +:+ fmt maxdate +:+ "...");
     mret id_list)
    is_KeyError
    (fun _ => mret (JList [])).

(** ** get_pmc_metadata *)

(** The dictionary appended to [articles] (lines 144-154).  [journal] and
    the items of [authors] are node texts and may be [None]. *)
Record Article : Type :=
  mkArticle {
      pmcid : string;
      title : string;
      journal : option string;
      pub_date : string;
      authors : list (option string);
      pub_type : string;
      abstract : string;
      mesh_terms : list string;
      references : list string
    }.

(** Lines 83-84. *)
Definition article_title (meta : Element) : string :=
  match find meta (Descendant "article-title") with
  | Some title_node => join_empty (itertext title_node)
  | None => "No Title"
  end.

(** Lines 87-96.  [startswith] on a text that is [None] raises. *)
Definition article_pmcid (meta : Element) : outcome string :=
  match find meta (DescendantAttr "article-id" "pub-id-type" "pmcid") with
  | Some pmcid_node =>
      match text pmcid_node with
      | Some pmcid_text =>
          if startswith pmcid_text "PMC" then mret pmcid_text
          else mret ("PMC" +:+ pmcid_text)
      | None => Raise AttributeError
      end
  | None => mret "Unknown"
  end.

(** Lines 99-100. *)
Definition article_abstract (meta : Element) : string :=
  match find meta (Descendant "abstract") with
  | Some abstract_node => strip (join_empty (itertext abstract_node))
  | None => "No Abstract"
  end.

(** Lines 103-106. *)
Fixpoint keywords_loop (kwds : list Element) (keywords : list string) : list string :=
  match kwds with
  | [] => keywords
  | kw :: rest =>
      match text kw with
      | Some (String c t) => keywords_loop rest (keywords ++ [String c t])
      | _ => keywords_loop rest keywords
      end
  end.

Definition article_keywords (meta : Element) : list string :=
  keywords_loop (findall meta (Descendant "kwd")) [].

(** Line 109. *)
Definition article_pub_type (article : Element) : string :=
  default "Unknown" (get article "article-type").

(** Line 116. *)
Definition ref_citation (ref : Element) : option Element :=
  or_else (or_else (find ref (Descendant "mixed-citation"))
                   (find ref (Descendant "citation")))
          (find ref (Descendant "element-citation")).

(** Lines 112-118. *)
Fixpoint refs_loop (ref_list : list Element) (refs : list string) : list string :=
  match ref_list with
  | [] => refs
  | ref :: rest =>
      match ref_citation ref with
      | Some citation =>
          refs_loop rest (refs ++ [strip (join_empty (itertext citation))])
      | None => refs_loop rest refs
      end
  end.

Definition article_references (article : Element) : list string :=
  refs_loop (findall article (Descendant "ref")) [].

(** Lines 121-122. *)
Definition article_journal (article : Element) : option string :=
  match find article (Descendant "journal-title") with
  | Some journal_node => text journal_node
  | None => Some "Unknown Journal"
  end.

(** One segment of line 130: the node's text, or the fallback. *)
Definition date_part (node : option Element) (fallback : string) : string :=
  match node with
  | Some n => fmt (text n)
  | None => fallback
  end.

(** Lines 125-132. *)
Definition article_pub_date (article : Element) : string :=
  match find article (Descendant "pub-date") with
  | Some pub_date_node =>
      let year := find pub_date_node (Child "year") in
      let month := find pub_date_node (Child "month") in
      let day := find pub_date_node (Child "day") in
      date_part year "" +:+ "-" +:+ date_part month "01" +:+ "-" +:+ date_part day "01"
  | None => "Unknown Date"
  end.

(** Lines 135-142. *)
Fixpoint authors_loop (contribs : list Element) (authors : list (option string))
  : list (option string) :=
  match contribs with
  | [] => authors
  | contrib :: rest =>
      let surname := find contrib (Descendant "surname") in
      let given_names := find contrib (Descendant "given-names") in
      match surname, given_names with
      | Some s, Some g =>
          authors_loop rest (authors ++ [Some (fmt (text s) +:+ ", " +:+ fmt (text g))])
      | Some s, None => authors_loop rest (authors ++ [text s])
      | None, _ => authors_loop rest authors
      end
  end.

Definition article_authors (meta : Element) : list (option string) :=
  authors_loop
    (findall meta (DescendantAttr "contrib" "contrib-type" "author")) [].

(** The body of the loop over article nodes (lines 77-154): [None] stands
    for [continue]. *)
Definition article_record (article : Element) : outcome (option Article) :=
  match find article (Descendant "article-meta") with
  | None => mret None
  | Some meta =>
      let title := article_title meta in
      pmcid ← article_pmcid meta;
      let abstract := article_abstract meta in
      let keywords := article_keywords meta in
      let pub_type := article_pub_type article in
      let refs := article_references article in
      let journal := article_journal article in
      let pub_date := article_pub_date article in
      let authors := article_authors meta in
      mret (Some (mkArticle pmcid title journal pub_date authors pub_type
                            abstract keywords refs))
  end.

(** Lines 74-156: the loop, appending to [articles]. *)
Fixpoint articles_loop (nodes : list Element) (articles : list Article)
  : outcome (list Article) :=
  match nodes with
  | [] => mret articles
  | article :: rest =>
      r ← article_record article;
      match r with
      | Some a => articles_loop rest (articles ++ [a])
      | None => articles_loop rest articles
      end
  end.

Definition parse_articles (root : Element) : outcome (list Article) :=
  articles_loop (findall root (Descendant "article")) [].

Definition get_pmc_metadata (w : World) (id_list : list string)
  : prog (list Article) :=
  match id_list with
  | [] => mret []
  | _ :: _ =>
      let url := BASE_URL +:+ "efetch.fcgi" in
      let ids_string := join "," id_list in
      let ps := [("db", PStr "pmc"); ("id", PStr ids_string); ("retmode", PStr "xml")] in
      response ← get_request w url ps;
      _ ← lift (raise_for_status response);
      match fromstring w (content response) with
      | None =>
          _ ← print "Failed to parse XML response";
          mret []
      | Some root => lift (parse_articles root)
      end
  end.

(** ** Paths and file operations ([os], [os.path], [open]) *)

Module OS.

Definition slash : ascii := "/"%char.

(** [os.path.join(a, b)] *)
Definition path_join (a b : string) : string :=
  if startswith b "/" then b
  else if bool_decide (a = "") || endswith a "/" then a +:+ b
  else a +:+ "/" +:+ b.

(** [os.path.basename(p)]: what follows the last slash. *)
Fixpoint basename_from (acc p : string) : string :=
  match p with
  | EmptyString => acc
  | String c p' =>
      if bool_decide (c = slash) then basename_from "" p'
      else basename_from (acc +:+ String c "") p'
  end.

Definition basename (p : string) : string := basename_from "" p.

(** The non-empty proper prefixes of [p] that end just before a slash. *)
Fixpoint ancestors_from (pre p : string) : list string :=
  match p with
  | EmptyString => []
  | String c p' =>
      (if bool_decide (c = slash) && negb (bool_decide (pre = "")) then [pre] else [])
        ++ ancestors_from (pre +:+ String c "") p'
  end.

Definition ancestors (p : string) : list string := ancestors_from "" p.

Definition parent (p : string) : string :=
  default "" (last (ancestors p)).

Definition is_file (f : FS) (p : string) : bool :=
  bool_decide (is_Some (files f !! p)).

Definition is_dir (f : FS) (p : string) : bool :=
  bool_decide (p ∈ dirs f).

(** [os.path.exists(p)] *)
Definition exists_ (f : FS) (p : string) : bool := is_file f p || is_dir f p.

(** [os.makedirs(name, exist_ok=True)] *)
Definition makedirs (name : string) (f : FS) : outcome FS :=
  if existsb (is_file f) (ancestors name ++ [name])
  then Raise (OSError ("File exists: " +:+ name))
  else Return (mkFS (files f) (dirs f ∪ list_to_set (ancestors name ++ [name]))).

(** [open(p, 'wb')] followed by writing [data] and closing. *)
Definition write_file (p data : string) (f : FS) : outcome FS :=
  if is_dir f p then Raise (OSError ("Is a directory: " +:+ p))
  else if negb (bool_decide (parent p = "")) && negb (is_dir f (parent p))
       then Raise (OSError ("No such file or directory: " +:+ p))
       else Return (mkFS (<[p := data]> (files f)) (dirs f)).

(** [os.remove(p)] *)
Definition remove (p : string) (f : FS) : outcome FS :=
  match files f !! p with
  | Some _ => Return (mkFS (delete p (files f)) (dirs f))
  | None => Raise (OSError ("No such file or directory: " +:+ p))
  end.

(** [os.rename(old, new)] of a regular file; the program calls it only
    after [os.path.exists(new)] was false. *)
Definition rename (old new : string) (f : FS) : outcome FS :=
  match files f !! old with
  | Some data => Return (mkFS (<[new := data]> (delete old (files f))) (dirs f))
  | None => Raise (OSError ("No such file or directory: " +:+ old))
  end.

End OS.

Export OS.

(** ** download_article_files *)

(** Lines 188-195: the format-to-URL dictionary.  The key is the [format]
    attribute, which may be absent. *)
Fixpoint collect_links (nodes : list Element) (links : gmap (option string) string)
  : gmap (option string) string :=
  match nodes with
  | [] => links
  | link :: rest =>
      let fmt := get link "format" in
      match get link "href" with
      | Some (String c h) =>
          let href := String c h in
          let href :=
            if startswith href "ftp://" then replace href "ftp://" "https://"
            else href in
          collect_links rest (<[fmt := href]> links)
      | _ => collect_links rest links
      end
  end.

(** Lines 209-213 and 227-231: stream the body of [href] into [save_path].
    The file is created before the first chunk is read and keeps the chunks
    received when the stream breaks. *)
Definition download_to (w : World) (href save_path : string) : prog unit :=
  r ← get_request w href [];
  _ ← lift (raise_for_status r);
  _ ← with_fs (write_file save_path (join_empty (body_chunks r)));
  match stream_error r with
  | Some e => lift (Raise e)
  | None => mret tt
  end.

(** Lines 201-217: one round of the loop over [('pdf','pdf'), ('xml','nxml')]. *)
Definition direct_download (w : World) (pmcid article_dir : string)
           (links : gmap (option string) string) (fmt ext : string) : prog unit :=
  match links !! Some fmt with
  | Some href =>
      let save_name := pmcid +:+ "." +:+ ext in
      let save_path := path_join article_dir save_name in
      _ ← print ("Downloading " +:+ upper_ascii fmt +:+ " as " +:+ save_name +:+ "...");
      try_except
        (_ ← download_to w href save_path;
         _ ← print ("Saved " +:+ save_name);
         set_downloaded true)
        is_Exception
        (fun e => print ("Failed to download " +:+ href +:+ ": " +:+ exn_str e))
  | None => mret tt
  end.

(** [os.path.exists(p)] as a step of the program. *)
Definition path_exists (p : string) : prog bool := fun s =>
  (Return (exists_ (fs s) p), s).

(** Lines 244-257: one file met during the walk. *)
Definition rename_file (pmcid article_dir root_path file : string) : prog unit :=
  if endswith (lower file) ".pdf" then
    let old_path := path_join root_path file in
    let new_path := path_join article_dir (pmcid +:+ ".pdf") in
    e ← path_exists new_path;
    if negb e then
      _ ← with_fs (rename old_path new_path);
      print ("Renamed " +:+ file +:+ " to " +:+ pmcid +:+ ".pdf")
    else mret tt
  else if endswith (lower file) ".nxml" || endswith (lower file) ".xml" then
    let old_path := path_join root_path file in
    let new_path := path_join article_dir (pmcid +:+ ".nxml") in
    e ← path_exists new_path;
    if negb e then
      _ ← with_fs (rename old_path new_path);
      print ("Renamed " +:+ file +:+ " to " +:+ pmcid +:+ ".nxml")
    else mret tt
  else mret tt.

(** Line 243: the files of one directory. *)
Fixpoint rename_files (pmcid article_dir root_path : string) (names : list string)
  : prog unit :=
  match names with
  | [] => mret tt
  | file :: rest =>
      _ ← rename_file pmcid article_dir root_path file;
      rename_files pmcid article_dir root_path rest
  end.

(** Line 242: the directories of the walk. *)
Fixpoint rename_walk (pmcid article_dir : string) (entries : list (string * list string))
  : prog unit :=
  match entries with
  | [] => mret tt
  | (root_path, names) :: rest =>
      _ ← rename_files pmcid article_dir root_path names;
      rename_walk pmcid article_dir rest
  end.

(** Lines 235-236: open the archive stored at [tgz_path] and unpack it
    into [article_dir]. *)
Definition unpack (w : World) (tgz_path article_dir : string) : prog unit := fun s =>
  match files (fs s) !! tgz_path with
  | Some archive => with_fs (extractall w archive article_dir) s
  | None => (Raise (OSError ("No such file or directory: " +:+ tgz_path)), s)
  end.

(** Lines 242-257.  Every directory is listed before the files in it are
    renamed, and a rename only moves a file out of the directory being
    visited into the top directory, so the walk is the one of the file
    system as it is when the loop starts. *)
Definition rename_extracted (w : World) (pmcid article_dir : string) : prog unit :=
  fun s => rename_walk pmcid article_dir (walk w (fs s) article_dir) s.

(** Lines 235-257: unpack, delete the archive, rename. *)
Definition extract_package (w : World) (pmcid article_dir tgz_path : string)
  : prog unit :=
  _ ← unpack w tgz_path article_dir;
  _ ← with_fs (remove tgz_path);
  _ ← set_downloaded true;
  rename_extracted w pmcid article_dir.

(** Lines 221-263. *)
Definition download_package (w : World) (pmcid article_dir href : string)
  : prog unit :=
  let tgz_name := basename href in
  let tgz_path := path_join article_dir tgz_name in
  _ ← print ("Downloading OA Package (TGZ): " +:+ tgz_name +:+ "...");
  try_except
    (_ ← download_to w href tgz_path;
     _ ← print ("Extracting " +:+ tgz_name +:+ "...");
     try_except
       (extract_package w pmcid article_dir tgz_path)
       is_TarError
       (fun e => print ("Failed to extract tarball: " +:+ exn_str e)))
    is_Exception
    (fun e => print ("Failed to download package " +:+ href +:+ ": " +:+ exn_str e)).

(** Lines 167-172: [None] stands for the [return] of the handler. *)
Definition query_oa (w : World) (pmcid : string) : prog (option Response) :=
  let oa_url := "https://www.ncbi.nlm.nih.gov/pmc/utils/oa/oa.fcgi" in
  let ps := [("id", PStr pmcid)] in
  try_except
    (response ← get_request w oa_url ps;
     _ ← lift (raise_for_status response);
     mret (Some response))
    is_RequestException
    (fun e =>
       _ ← print ("Error querying OA API for " +:+ pmcid +:+ ": " +:+ exn_str e);
       mret None).

(** Lines 185-266, after the early returns. *)
Definition download_links (w : World) (pmcid save_dir : string) (root : Element)
  : prog unit :=
  let article_dir := path_join save_dir pmcid in
  _ ← with_fs (makedirs article_dir);
  let links := collect_links (findall root (Descendant "link")) ∅ in
  _ ← set_downloaded false;
  _ ← (if bool_decide (is_Some (links !! Some "pdf"))
          || bool_decide (is_Some (links !! Some "xml"))
       then
         _ ← direct_download w pmcid article_dir links "pdf" "pdf";
         direct_download w pmcid article_dir links "xml" "nxml"
       else mret tt);
  d ← get_downloaded;
  _ ← (match negb d, links !! Some "tgz" with
       | true, Some href => download_package w pmcid article_dir href
       | _, _ => mret tt
       end);
  d ← get_downloaded;
  if negb d then
    print ("No accessible files found for " +:+ pmcid +:+ " (might not be Open Access).")
  else mret tt.

Definition download_article_files (w : World) (pmcid save_dir : string) : prog unit :=
  r ← query_oa w pmcid;
  match r with
  | None => mret tt
  | Some response =>
      match fromstring w (content response) with
      | None => print ("Failed to parse OA XML for " +:+ pmcid)
      | Some root =>
          match find root (Descendant "error") with
          | Some error =>
              print ("OA API Error for " +:+ pmcid +:+ ": " +:+ fmt (get error "code")
                       +:+ " - " +:+ fmt (text error))
          | None => download_links w pmcid save_dir root
          end
      end
  end.

(** ** Sample inputs *)

Module Samples.

Definition leaf (t : string) (tx : string) : Element :=
  mkElement t [] (Some tx) None [].

Definition node (t : string) (cs : list Element) : Element :=
  mkElement t [] None None cs.

Definition empty_fs : FS := mkFS ∅ ∅.

Definition start : state := mkState empty_fs [] [] false.

(** A world in which every request is answered with a body that parses
    to [doc]. *)
Definition serving (doc : Element) : World :=
  mkWorld (mkDatetime 2024 3 10 0)
          (fun _ _ =>
             Return (mkResponse None "<xml/>" (Raise (ValueError "not JSON")) [] None))
          (fun _ => Some doc)
          (fun _ _ f => Return f)
          (fun _ _ => []).

Definition pmcid_node (tx : string) : Element :=
  mkElement "article-id" [("pub-id-type", "pmcid")] (Some tx) None [].

(** <article><front><article-meta>ids</article-meta></front>
    <back><ref-list>refs</ref-list></back></article> *)
Definition article_with (ids refs : list Element) : Element :=
  mkElement "article" [("article-type", "research-article")] None None
            [node "front" [node "article-meta" ids];
             node "back" [node "ref-list" refs]].

Definition articleset (arts : list Element) : Element :=
  node "pmc-articleset" arts.

(** <ref><mixed-citation>Smith J. 2020.</mixed-citation></ref> *)
Definition ref_text_only : Element :=
  node "ref" [leaf "mixed-citation" "Smith J. 2020."].

(** <ref><mixed-citation>Smith J. <italic>Cell</italic> 2020.</mixed-citation></ref> *)
Definition ref_with_markup : Element :=
  node "ref"
       [mkElement "mixed-citation" [] (Some "Smith J. ") None
                  [mkElement "italic" [] (Some "Cell") (Some " 2020.") []]].

(** <ref><label>1</label></ref> *)
Definition ref_without_citation : Element :=
  node "ref" [leaf "label" "1"].

(** <pub-date><year>2024</year></pub-date> *)
Definition pub_date_year_only : Element :=
  node "pub-date" [leaf "year" "2024"].

(** {"esearchresult": {"idlist": ["123", "456"]}} *)
Definition search_body : Json.value :=
  JDict {[ "esearchresult" := JDict {[ "idlist" := JList [JStr "123"; JStr "456"] ]} ]}.

(** A world in which every request is answered with the JSON [data], on
    10 March 2024. *)
Definition answering (data : Json.value) : World :=
  mkWorld (mkDatetime 2024 3 10 0)
          (fun _ _ => Return (mkResponse None "{}" (Return data) [] None))
          (fun _ => None)
          (fun _ _ f => Return f)
          (fun _ _ => []).

(** A world in which no request gets through. *)
Definition unreachable : World :=
  mkWorld (mkDatetime 2024 3 10 0)
          (fun _ _ => Raise (RequestException "Connection refused"))
          (fun _ => None)
          (fun _ _ f => Return f)
          (fun _ _ => []).

(** A world in which every request is answered with status 404. *)
Definition rejecting : World :=
  mkWorld (mkDatetime 2024 3 10 0)
          (fun _ _ =>
             Return (mkResponse (Some "404 Client Error: Not Found") ""
                                (Raise (ValueError "not JSON")) [] None))
          (fun _ => None)
          (fun _ _ f => Return f)
          (fun _ _ => []).

(** <OA><error code="idIsNotOpenAccess">identifier is not Open Access</error></OA> *)
Definition oa_error : Element :=
  node "OA"
       [mkElement "error" [("code", "idIsNotOpenAccess")]
                  (Some "identifier is not Open Access") None []].

(** <OA><records><record><link format="tgz" href="ftp://..."/></record></records></OA> *)
Definition oa_links : Element :=
  node "OA"
       [node "records"
             [node "record"
                   [mkElement "link"
                              [("format", "tgz");
                               ("href", "ftp://ftp.ncbi.nlm.nih.gov/pub/pmc/oa_package/aa/bb/PMC1.tar.gz")]
                              None None []]]].

Definition package_href : string :=
  "https://ftp.ncbi.nlm.nih.gov/pub/pmc/oa_package/aa/bb/PMC1.tar.gz".

(** Unpacking writes each member, given by its path in the archive and
    its content, below [dest]. *)
Definition unpack_into (dest : string) (members : list (string * string)) (f : FS) : FS :=
  mkFS (fold_right (fun m acc => <[path_join dest (fst m) := snd m]> acc)
                   (files f) members)
       (dirs f).

(** A world that answers the open-access query with [oa_links], serves
    an archive with the given members and lists the article directory as
    [listing] says. *)
Definition packaged (members : list (string * string))
           (listing : string → list (string * list string)) : World :=
  mkWorld (mkDatetime 2024 3 10 0)
          (fun _ _ =>
             Return (mkResponse None "<OA/>" (Raise (ValueError "not JSON"))
                                ["TGZ"] None))
          (fun _ => Some oa_links)
          (fun _ dest f => Return (unpack_into dest members f))
          (fun _ top => listing top).

(** An archive with [a.pdf] and [PMC1.pdf] at its top, listed in this
    order. *)
Definition two_pdfs : World :=
  packaged [("a.pdf", "A"); ("PMC1.pdf", "B")]
           (fun top => [(top, ["a.pdf"; "PMC1.pdf"])]).

(** The article directory of [two_pdfs] once the archive is unpacked and
    deleted. *)
Definition two_pdfs_unpacked : FS :=
  mkFS {[ "downloads/PMC1/a.pdf" := "A"; "downloads/PMC1/PMC1.pdf" := "B" ]}
       {[ "downloads"; "downloads/PMC1" ]}.

(** An archive with a directory [PMC1] that holds two PDF files and an
    NXML file. *)
Definition pdf_and_xml : World :=
  packaged [("PMC1/main.pdf", "P"); ("PMC1/second.PDF", "Q");
            ("PMC1/article.nxml", "X")]
           (fun top =>
              [(top, []);
               (path_join top "PMC1", ["main.pdf"; "second.PDF"; "article.nxml"])]).

(** The state in which the article directory has just been made. *)
Definition prepared : state :=
  mkState (mkFS ∅ {[ "downloads"; "downloads/PMC1" ]}) [] [] false.


(** <article-id pub-id-type="pmcid"/> *)
Definition pmcid_node_empty : Element :=
  mkElement "article-id" [("pub-id-type", "pmcid")] None None [].

(** <kwd-group><kwd>cancer</kwd><kwd/><kwd>genomics</kwd></kwd-group> *)
Definition kwd_group : Element :=
  node "kwd-group" [leaf "kwd" "cancer"; node "kwd" []; leaf "kwd" "genomics"].

(** <contrib contrib-type="..."><name>names</name></contrib> *)
Definition contrib (contrib_type : string) (names : list Element) : Element :=
  mkElement "contrib" [("contrib-type", contrib_type)] None None [node "name" names].

(** Two authors with a surname, an author without one, and an editor. *)
Definition contrib_group : Element :=
  node "contrib-group"
       [contrib "author" [leaf "surname" "Smith"; leaf "given-names" "John"];
        contrib "author" [leaf "surname" "Consortium"];
        contrib "author" [leaf "given-names" "Ann"];
        contrib "editor" [leaf "surname" "Jones"; leaf "given-names" "Eve"]].

(** <abstract>  <p>Background.</p> </abstract> *)
Definition abstract_node : Element :=
  mkElement "abstract" [] (Some "  ") None
            [mkElement "p" [] (Some "Background.") (Some " ") []].

(** <link format="..." href="..."/> *)
Definition link (format href : string) : Element :=
  mkElement "link" [("format", format); ("href", href)] None None [].

(** <OA><records><record>links</record></records></OA> *)
Definition oa_record (links : list Element) : Element :=
  node "OA" [node "records" [node "record" links]].

Definition pdf_href : string :=
  "https://ftp.ncbi.nlm.nih.gov/pub/pmc/oa_pdf/aa/bb/main.pdf".

Definition xml_href : string :=
  "https://ftp.ncbi.nlm.nih.gov/pub/pmc/oa_xml/aa/bb/main.nxml".

(** A response with status 200 whose body arrives in the given chunks. *)
Definition body (chunks : list string) : Response :=
  mkResponse None "<OA/>" (Raise (ValueError "not JSON")) chunks None.

(** A world in which every body parses to [doc] and each address is
    answered as [answer] says. *)
Definition linked (doc : Element) (answer : string → outcome Response) : World :=
  mkWorld (mkDatetime 2024 3 10 0)
          (fun url _ => answer url)
          (fun _ => Some doc)
          (fun _ _ f => Return f)
          (fun _ _ => []).

(** A PDF link and an archive link; every request succeeds. *)
Definition pdf_and_archive : World :=
  linked (oa_record [link "pdf" "ftp://ftp.ncbi.nlm.nih.gov/pub/pmc/oa_pdf/aa/bb/main.pdf";
                     link "tgz" "ftp://ftp.ncbi.nlm.nih.gov/pub/pmc/oa_package/aa/bb/PMC1.tar.gz"])
         (fun _ => Return (body ["%PDF-"; "1.7"])).

(** A PDF link and an XML link; the request for the PDF times out. *)
Definition pdf_times_out : World :=
  linked (oa_record [link "pdf" pdf_href; link "xml" xml_href])
         (fun url =>
            if bool_decide (url = pdf_href) then Raise (RequestException "Read timed out")
            else Return (body ["<article/>"])).

(** A PDF link only; the body breaks off after its first chunk. *)
Definition pdf_breaks_off : World :=
  linked (oa_record [link "pdf" pdf_href])
         (fun _ =>
            Return (mkResponse None "<OA/>" (Raise (ValueError "not JSON")) ["%PDF-"]
                               (Some (RequestException "Connection broken")))).



(** The article directory of [pdf_and_xml] once the archive is unpacked and
    deleted. *)
Definition pdf_and_xml_unpacked : FS :=
  unpack_into "downloads/PMC1"
              [("PMC1/main.pdf", "P"); ("PMC1/second.PDF", "Q");
               ("PMC1/article.nxml", "X")]
              (mkFS ∅ {[ "downloads"; "downloads/PMC1" ]}).

End Samples.

(** ** Vocabulary of the statements *)

(** The article node holds an [article-meta] descendant. *)
Definition has_meta (article : Element) : bool :=
  bool_decide (is_Some (find article (Descendant "article-meta"))).

(** [s] is what the child [t] of [node] contributes to the date: its text
    when the child is there, [fallback] when it is not. *)
Definition date_segment (node : Element) (t fallback s : string) : Prop :=
  match find node (Child t) with
  | Some child => text child = Some s
  | None => s = fallback
  end.

(** The tail of [_ord2ymd]: month and day of the day numbered [n] (from
    0) within a year. *)
Definition month_day (leapyear : bool) (n : Z) : Z * Z :=
  (let m := Z.shiftr (n + 50) 5 in
   let preceding := _DAYS_BEFORE_MONTH m + (if (2 <? m) && leapyear then 1 else 0) in
   if n <? preceding then
     let m := m - 1 in
     let preceding :=
       preceding - (_DAYS_IN_MONTH m + (if (m =? 2) && leapyear then 1 else 0)) in
     (m, n - preceding + 1)
   else (m, n - preceding + 1))%Z.

Definition month_day_ok (leapyear : bool) (n : Z) : bool :=
  (let '(m, d) := month_day leapyear n in
   (1 <=? m) && (m <=? 12) && (1 <=? d)
   && (d <=? _DAYS_IN_MONTH m + (if (m =? 2) && leapyear then 1 else 0))
   && (_DAYS_BEFORE_MONTH m + (if (2 <? m) && leapyear then 1 else 0) + d =? n + 1))%Z.

(** The last day of month [m] is at most the 366th day of its year, and
    no month has more than 31 days. *)
Definition month_table_ok (leapyear : bool) (m : Z) : bool :=
  (let last := if (m =? 2) && leapyear then 29 else _DAYS_IN_MONTH m in
   (0 <=? _DAYS_BEFORE_MONTH m)
   && (_DAYS_BEFORE_MONTH m + (if (2 <? m) && leapyear then 1 else 0) + last <=? 366)
   && (last <=? 31))%Z.

(** Reading a date back from the form [YYYY/MM/DD]. *)
Definition digit_value (c : ascii) : option Z :=
  let n := nat_of_ascii c in
  if ((48 <=? n) && (n <=? 57))%nat then Some (Z.of_nat (n - 48)) else None.

Definition is_slash (c : ascii) : bool := bool_decide (c = "/"%char).

Definition parse_ymd (s : string) : option (Z * Z * Z) :=
  match s with
  | String y1 (String y2 (String y3 (String y4 (String s1 (String m1 (String m2
      (String s2 (String d1 (String d2 EmptyString))))))))) =>
      if is_slash s1 && is_slash s2 then
        y1 ← digit_value y1; y2 ← digit_value y2;
        y3 ← digit_value y3; y4 ← digit_value y4;
        m1 ← digit_value m1; m2 ← digit_value m2;
        d1 ← digit_value d1; d2 ← digit_value d2;
        Some (1000 * y1 + 100 * y2 + 10 * y3 + y4, 10 * m1 + m2, 10 * d1 + d2)%Z
      else None
  | _ => None
  end.

(** The request [search_pmc] sends for a date range. *)
Definition search_request (term : string) (max_results : Z)
           (mindate maxdate : param) : string * params :=
  (BASE_URL +:+ "esearch.fcgi",
   [("db", PStr "pmc"); ("term", PStr term); ("retmode", PStr "json");
    ("retmax", PInt max_results); ("datetype", PStr "pdat");
    ("mindate", mindate); ("maxdate", maxdate)]).

(** The two kinds of file the renaming loop looks for. *)
Inductive kind : Type := Pdf | Nxml.

#[global] Instance kind_eq_dec : EqDecision kind.
Proof. solve_decision. Defined.

(** Lines 244 and 252: the kind of a file, by its name. *)
Definition kind_of (file : string) : option kind :=
  if endswith (lower file) ".pdf" then Some Pdf
  else if endswith (lower file) ".nxml" || endswith (lower file) ".xml" then Some Nxml
  else None.

Definition extension (k : kind) : string :=
  match k with
  | Pdf => ".pdf"
  | Nxml => ".nxml"
  end.

(** The last three characters of a name of the kind, in lower case. *)
Definition ending (k : kind) : string :=
  match k with
  | Pdf => "pdf"
  | Nxml => "xml"
  end.

(** Lines 246 and 254: the standard name for a kind. *)
Definition target (pmcid article_dir : string) (k : kind) : string :=
  path_join article_dir (pmcid +:+ extension k).

(** The files of a walk in the order they are met, each with the
    directory it is listed in. *)
Definition encountered (entries : list (string * list string))
  : list (string * string) :=
  flat_map (fun e => List.map (pair (fst e)) (snd e)) entries.

Definition source (x : string * string) : string := path_join (fst x) (snd x).

Definition of_kind (k : kind) (met : list (string * string))
  : list (string * string) :=
  List.filter (fun x => bool_decide (kind_of (snd x) = Some k)) met.

(** A listing fits a file system when it names regular files of it and
    names none twice. *)
Definition listing_ok (f : FS) (met : list (string * string)) : Prop :=
  NoDup (List.map source met)
  ∧ Forall (fun x => is_Some (files f !! source x)) met.

(** The loop of lines 242-257 over the files in the order they are met. *)
Fixpoint rename_met (pmcid article_dir : string) (met : list (string * string))
  : prog unit :=
  match met with
  | [] => mret tt
  | x :: rest =>
      _ ← rename_file pmcid article_dir (fst x) (snd x);
      rename_met pmcid article_dir rest
  end.

(** Lines 245-250 and 253-257, for either kind. *)
Definition rename_to (pmcid article_dir : string) (k : kind) (root_path file : string)
  : prog unit :=
  let old_path := path_join root_path file in
  let new_path := target pmcid article_dir k in
  e ← path_exists new_path;
  if negb e then
    _ ← with_fs (rename old_path new_path);
    print ("Renamed " +:+ file +:+ " to " +:+ pmcid +:+ extension k)
  else mret tt.

(** The first file of a kind is renamed to the standard name: what it
    held is found under the standard name afterwards, and nothing is left
    under its old name unless that was the standard name already. *)
Definition first_renamed (pmcid article_dir : string) (k : kind)
           (met : list (string * string)) (before after : FS) : Prop :=
  ∀ x rest data,
    of_kind k met = x :: rest →
    files before !! source x = Some data →
    files after !! target pmcid article_dir k = Some data
    ∧ (source x ≠ target pmcid article_dir k → files after !! source x = None).

(** What the loop does for one kind.  When the standard name is taken
    before the loop starts, that entry and all files of the kind stay as
    they are.  Otherwise the first file of the kind is moved to the
    standard name and the later ones stay as they are. *)
Definition renamed_once (pmcid article_dir : string) (k : kind)
           (met : list (string * string)) (before after : FS) : Prop :=
  let t := target pmcid article_dir k in
  if exists_ before t then
    files after !! t = files before !! t
    ∧ ∀ x, x ∈ of_kind k met → files after !! source x = files before !! source x
  else
    match of_kind k met with
    | [] => files after !! t = None
    | x :: rest =>
        files after !! t = files before !! source x
        ∧ files after !! source x = None
        ∧ ∀ y, y ∈ rest → files after !! source y = files before !! source y
    end.

(** A JSON object, as opposed to any other JSON value. *)
Definition is_dict (v : Json.value) : bool :=
  match v with
  | JDict _ => true
  | _ => false
  end.

(** The request [get_pmc_metadata] sends for a list of ids. *)
Definition efetch_request (id_list : list string) : string * params :=
  (BASE_URL +:+ "efetch.fcgi",
   [("db", PStr "pmc"); ("id", PStr (join "," id_list)); ("retmode", PStr "xml")]).

(** The [pmcid] node of the article's metadata, when there is one, has a
    text. *)
Definition id_has_text (article : Element) : Prop :=
  match find article (Descendant "article-meta") with
  | Some meta =>
      match find meta (DescendantAttr "article-id" "pub-id-type" "pmcid") with
      | Some pmcid_node => is_Some (text pmcid_node)
      | None => True
      end
  | None => True
  end.

(** Lines 105-106 for one [kwd] node. *)
Definition keyword_of (kw : Element) : option string :=
  match text kw with
  | Some (String c t) => Some (String c t)
  | _ => None
  end.

(** Lines 137-142 for one contributor. *)
Definition author_of (contrib : Element) : option (option string) :=
  match find contrib (Descendant "surname"), find contrib (Descendant "given-names") with
  | Some s, Some g => Some (Some (fmt (text s) +:+ ", " +:+ fmt (text g)))
  | Some s, None => Some (text s)
  | None, _ => None
  end.

(** Lines 193-194 for one address. *)
Definition normalize_href (href : string) : string :=
  if startswith href "ftp://" then replace href "ftp://" "https://" else href.

(** The string holds a slash. *)
Fixpoint has_slash (s : string) : bool :=
  match s with
  | EmptyString => false
  | String c s' => bool_decide (c = slash) || has_slash s'
  end.

(** Unfolding the steps of a program down to functions on states. *)
Ltac unfold_prog :=
  unfold mbind, prog_bind, lift, get_request, raise_for_status, try_except.

(** * Properties of get_pmc_metadata *)

Lemma articles_loop_has_meta (nodes : list Element) :
  ∀ articles,
    articles_loop nodes articles
    = articles_loop (List.filter has_meta nodes) articles.
Proof.
  induction nodes as [|a rest IH]; intros articles; [done|].
  cbn [List.filter]. unfold has_meta at 1.
  destruct (find a (Descendant "article-meta")) as [meta|] eqn:Hm.
  - rewrite bool_decide_eq_true_2 by eauto.
    cbn [articles_loop]. destruct (article_record a) as [[r|]|e]; cbn; auto.
  - rewrite bool_decide_eq_false_2 by (intros [? ?]; discriminate).
    cbn [articles_loop]. unfold article_record. rewrite Hm. cbn. apply IH.
Qed.

(** An article node with metadata never takes the [continue] branch. *)
Lemma article_record_has_meta (article : Element) :
  has_meta article = true → article_record article ≠ Return None.
Proof.
  unfold has_meta, article_record. intros H.
  apply bool_decide_eq_true_1 in H. destruct H as [meta ->].
  destruct (article_pmcid meta); cbn; discriminate.
Qed.

(** The records of a successful run are those of the article nodes with
    metadata, one each and in document order. *)
Lemma articles_loop_records (nodes : list Element) :
  ∀ articles result,
    articles_loop nodes articles = Return result →
    ∃ more, result = articles ++ more
            ∧ Forall2 (fun node a => article_record node = Return (Some a))
                      (List.filter has_meta nodes) more.
Proof.
  induction nodes as [|a rest IH]; intros articles result H.
  - cbn in H. injection H as <-. exists []. rewrite app_nil_r. split; [done|constructor].
  - cbn [articles_loop] in H. cbn [List.filter].
    destruct (article_record a) as [[r|]|e] eqn:Hr; cbn in H.
    + destruct (IH _ _ H) as (more & -> & Hall).
      exists (r :: more). rewrite <- app_assoc. split; [done|].
      assert (has_meta a = true) as ->.
      { unfold has_meta. apply bool_decide_eq_true_2.
        unfold article_record in Hr.
        destruct (find a (Descendant "article-meta")); [eauto|discriminate]. }
      by constructor.
    + destruct (IH _ _ H) as (more & -> & Hall).
      exists more. split; [done|].
      destruct (has_meta a) eqn:Hm; [|done].
      by apply article_record_has_meta in Hm.
    + discriminate.
Qed.

Lemma parse_articles_records (root : Element) (result : list Article) :
  parse_articles root = Return result →
  Forall2 (fun node a => article_record node = Return (Some a))
          (List.filter has_meta (findall root (Descendant "article"))) result.
Proof.
  intros H. destruct (articles_loop_records _ _ _ H) as (more & -> & Hall).
  exact Hall.
Qed.

(** C9.  An article node without an [article-meta] descendant is left out
    of the result: the records are computed from the article nodes that
    have one, as if the others were not in the document, and a run that
    returns yields exactly one record for each article node with
    metadata. *)
Theorem article_without_meta_omitted (root : Element) :
  parse_articles root
  = articles_loop (List.filter has_meta (findall root (Descendant "article"))) []
  ∧ (∀ before article after articles,
        find article (Descendant "article-meta") = None →
        articles_loop (before ++ article :: after) articles
        = articles_loop (before ++ after) articles)
  ∧ (∀ result,
        parse_articles root = Return result →
        length result
        = length (List.filter has_meta (findall root (Descendant "article")))).
Proof.
  split; [apply articles_loop_has_meta|]. split.
  - intros before article after articles Hm.
    rewrite (articles_loop_has_meta (before ++ article :: after)),
      (articles_loop_has_meta (before ++ after)).
    rewrite !List.filter_app. cbn [List.filter]. unfold has_meta at 2.
    rewrite Hm, bool_decide_eq_false_2; [done|].
    intros [? ?]; discriminate.
  - intros result H. apply parse_articles_records in H.
    symmetry. eapply Forall2_length, H.
Qed.

Lemma article_without_meta_omitted_witness :
  let bare := Samples.node "article" [Samples.node "front" []] in
  let full := Samples.article_with [Samples.pmcid_node "123"] [] in
  parse_articles (Samples.articleset [bare; full])
  = parse_articles (Samples.articleset [full])
  ∧ ∃ a, parse_articles (Samples.articleset [bare; full]) = Return [a]
         ∧ pmcid a = "PMC123".
Proof.
  cbv zeta. split.
  - exact (proj1 (proj2 (article_without_meta_omitted
                           (Samples.articleset [])))
                 [] (Samples.node "article" [Samples.node "front" []])
                 [Samples.article_with [Samples.pmcid_node "123"] []] []
                 eq_refl).
  - eexists. split; reflexivity.
Defined.

(** A reference entry that has none of the three citation nodes is
    skipped. *)
Lemma ref_without_citation_skipped (ref : Element) (rest : list Element)
      (refs : list string) :
  find ref (Descendant "mixed-citation") = None →
  find ref (Descendant "citation") = None →
  find ref (Descendant "element-citation") = None →
  refs_loop (ref :: rest) refs = refs_loop rest refs.
Proof.
  intros H1 H2 H3. cbn [refs_loop]. unfold ref_citation.
  by rewrite H1, H2, H3.
Qed.

(** A citation node with child elements is selected by presence, in the
    priority order of line 116. *)
Lemma ref_citation_with_children (ref c : Element) :
  truthy c = true →
  (find ref (Descendant "mixed-citation") = Some c
   ∨ (find ref (Descendant "mixed-citation") = None
      ∧ find ref (Descendant "citation") = Some c)
   ∨ (find ref (Descendant "mixed-citation") = None
      ∧ find ref (Descendant "citation") = None
      ∧ find ref (Descendant "element-citation") = Some c)) →
  ref_citation ref = Some c.
Proof.
  intros Ht [H1|[[H1 H2]|(H1 & H2 & H3)]]; unfold ref_citation, or_else;
    rewrite ?H1, ?H2, ?H3, ?Ht; done.
Qed.

(** A [mixed-citation] node without child elements counts as false in
    the chain of line 116: when the entry has no other citation node it is
    skipped, whatever text the node holds. *)
Lemma childless_mixed_citation_skipped (ref c : Element) (rest : list Element)
      (refs : list string) :
  find ref (Descendant "mixed-citation") = Some c →
  children c = [] →
  find ref (Descendant "citation") = None →
  find ref (Descendant "element-citation") = None →
  refs_loop (ref :: rest) refs = refs_loop rest refs.
Proof.
  intros H1 Hc H2 H3. cbn [refs_loop]. unfold ref_citation, or_else, truthy.
  by rewrite H1, H2, H3, Hc.
Qed.

(** C1.  The entry
    [<ref><mixed-citation>Smith J. 2020.</mixed-citation></ref>] has a
    [mixed-citation] node, yet it adds nothing to the references: of the
    two entries of the document only the one whose citation has a child
    element is recorded. *)
Theorem text_only_citation_not_recorded :
  let doc :=
    Samples.articleset
      [Samples.article_with [Samples.pmcid_node "123"]
                            [Samples.ref_text_only; Samples.ref_with_markup]] in
  find Samples.ref_text_only (Descendant "mixed-citation")
  = Some (Samples.leaf "mixed-citation" "Smith J. 2020.")
  ∧ ref_citation Samples.ref_text_only = None
  ∧ ∃ a, fst (get_pmc_metadata (Samples.serving doc) ["123"] Samples.start)
         = Return [a]
         ∧ references a = ["Smith J. Cell 2020."].
Proof.
  cbv zeta. split; [reflexivity|]. split; [reflexivity|].
  eexists. split; vm_compute; reflexivity.
Qed.

Lemma startswith_append (p t : string) : startswith (p +:+ t) p = true.
Proof.
  unfold startswith. induction p as [|c p IH]; simpl.
  - by destruct t.
  - destruct (ascii_dec c c); [exact IH|done].
Qed.

Lemma startswith_after_prefix (p q t : string) :
  startswith (p +:+ t) (p +:+ q) = startswith t q.
Proof.
  unfold startswith. induction p as [|c p IH]; [reflexivity|].
  change (String c p +:+ q) with (String c (p +:+ q)).
  change (String c p +:+ t) with (String c (p +:+ t)).
  simpl. destruct (ascii_dec c c); [exact IH|done].
Qed.

(** C2.  The identifier of a parsed article has one [PMC] prefix: a text
    that starts with [PMC] is kept as it is, any other text gets the prefix
    put in front (so the prefix is never doubled), and without a [pmcid]
    node the identifier is [Unknown]. *)
Theorem pmcid_has_one_prefix (article meta : Element) :
  find article (Descendant "article-meta") = Some meta →
  match find meta (DescendantAttr "article-id" "pub-id-type" "pmcid") with
  | None => ∃ a, article_record article = Return (Some a) ∧ pmcid a = "Unknown"
  | Some pmcid_node =>
      ∀ t, text pmcid_node = Some t →
           ∃ a, article_record article = Return (Some a)
                ∧ startswith (pmcid a) "PMC" = true
                ∧ (startswith t "PMC" = true → pmcid a = t)
                ∧ (startswith t "PMC" = false → pmcid a = "PMC" +:+ t)
                ∧ (startswith t "PMCPMC" = false →
                   startswith (pmcid a) "PMCPMC" = false)
  end.
Proof.
  intros Hm. unfold article_record. rewrite Hm. unfold article_pmcid.
  destruct (find meta _) as [n|].
  - intros t Ht. rewrite Ht.
    destruct (startswith t "PMC") eqn:Hp; cbn; eexists; (split; [reflexivity|]); cbn.
    + repeat split; done.
    + split; [apply startswith_append|]. split; [done|]. split; [done|].
      intros _. etrans; [exact (startswith_after_prefix "PMC" "PMC" t)|exact Hp].
  - cbn. eexists. split; reflexivity.
Qed.

Lemma pmcid_has_one_prefix_witness :
  (∃ a, article_record (Samples.article_with [Samples.pmcid_node "123"] [])
        = Return (Some a) ∧ pmcid a = "PMC123")
  ∧ (∃ a, article_record (Samples.article_with [Samples.pmcid_node "PMC123"] [])
          = Return (Some a) ∧ pmcid a = "PMC123")
  ∧ (∃ a, article_record (Samples.article_with [] [])
          = Return (Some a) ∧ pmcid a = "Unknown").
Proof.
  split; [|split].
  - pose proof (pmcid_has_one_prefix
                  (Samples.article_with [Samples.pmcid_node "123"] [])
                  (Samples.node "article-meta" [Samples.pmcid_node "123"])
                  eq_refl) as H.
    destruct (H "123" eq_refl) as (a & Ha & _ & _ & Hp & _).
    exists a. split; [exact Ha|]. apply Hp. reflexivity.
  - pose proof (pmcid_has_one_prefix
                  (Samples.article_with [Samples.pmcid_node "PMC123"] [])
                  (Samples.node "article-meta" [Samples.pmcid_node "PMC123"])
                  eq_refl) as H.
    destruct (H "PMC123" eq_refl) as (a & Ha & _ & Hp & _ & _).
    exists a. split; [exact Ha|]. apply Hp. reflexivity.
  - exact (pmcid_has_one_prefix
             (Samples.article_with [] [])
             (Samples.node "article-meta" []) eq_refl).
Defined.

Lemma date_part_segment (node : Element) (t fallback s : string) :
  date_segment node t fallback s →
  date_part (find node (Child t)) fallback = s.
Proof.
  unfold date_segment, date_part.
  destruct (find node (Child t)) as [c|]; [by intros ->|done].
Qed.

(** C3.  The publication date of a parsed article is [Unknown Date] when
    the article has no [pub-date] node; otherwise it is made of the texts
    of the [year], [month] and [day] children of the first [pub-date] node,
    joined by dashes, where an absent year gives an empty segment and an
    absent month or day gives [01]. *)
Theorem pub_date_of_first_node (article : Element) (a : Article) :
  article_record article = Return (Some a) →
  match find article (Descendant "pub-date") with
  | None => pub_date a = "Unknown Date"
  | Some pub_date_node =>
      ∀ y m d,
        date_segment pub_date_node "year" "" y →
        date_segment pub_date_node "month" "01" m →
        date_segment pub_date_node "day" "01" d →
        pub_date a = y +:+ "-" +:+ m +:+ "-" +:+ d
  end.
Proof.
  unfold article_record. intros H.
  destruct (find article (Descendant "article-meta")) as [meta|]; [|discriminate].
  destruct (article_pmcid meta) as [p|]; [|discriminate].
  cbn in H. injection H as <-. cbn [pub_date]. unfold article_pub_date.
  destruct (find article (Descendant "pub-date")) as [n|]; [|done].
  intros y m d Hy Hm Hd.
  by rewrite (date_part_segment _ _ _ _ Hy), (date_part_segment _ _ _ _ Hm),
    (date_part_segment _ _ _ _ Hd).
Qed.

Lemma pub_date_of_first_node_witness :
  let article :=
    mkElement "article" [] None None
              [Samples.node "front"
                 [Samples.node "article-meta" [Samples.pub_date_year_only]]] in
  ∃ a, article_record article = Return (Some a) ∧ pub_date a = "2024-01-01".
Proof.
  cbv zeta.
  set (article := mkElement "article" [] None None _).
  destruct (article_record article) as [[a|]|e] eqn:Ha; try discriminate Ha.
  exists a. split; [reflexivity|].
  exact (pub_date_of_first_node article a Ha "2024" "01" "01"
                                eq_refl eq_refl eq_refl).
Defined.

(** * Properties of search_pmc *)

(** C8.  When the request succeeds and the body is a JSON object: if it
    holds [esearchresult] with an [idlist], that value is returned as it
    is; if it has no [esearchresult] field, the empty list is returned and
    nothing is raised. *)
Theorem search_returns_idlist (w : World) (term : string) (max_results : Z)
        (mindate maxdate mi ma : option string) (s : state) (r : Response)
        (fields : gmap string Json.value) :
  search_dates w mindate maxdate = Return (mi, ma) →
  requests_get w (BASE_URL +:+ "esearch.fcgi")
               (search_params term max_results mi ma) = Return r →
  http_error r = None →
  json r = Return (JDict fields) →
  (∀ inner ids,
      fields !! "esearchresult" = Some (JDict inner) →
      inner !! "idlist" = Some ids →
      fst (search_pmc w term max_results mindate maxdate s) = Return ids)
  ∧ (fields !! "esearchresult" = None →
     fst (search_pmc w term max_results mindate maxdate s) = Return (JList [])).
Proof.
  intros Hd Hr He Hj.
  unfold search_pmc. unfold_prog.
  rewrite Hd. cbn. rewrite Hr, He. cbn. rewrite Hj. cbn. split.
  - intros inner ids H1 H2. rewrite H1. cbn. by rewrite H2.
  - intros H1. by rewrite H1.
Qed.

Lemma search_returns_idlist_witness :
  fst (search_pmc (Samples.answering Samples.search_body) "cancer" 5
                  (Some "2024/01/01") (Some "2024/01/31") Samples.start)
  = Return (JList [JStr "123"; JStr "456"])
  ∧ fst (search_pmc (Samples.answering (JDict ∅)) "cancer" 5
                    (Some "2024/01/01") (Some "2024/01/31") Samples.start)
    = Return (JList []).
Proof.
  split.
  - refine (proj1 (search_returns_idlist
                     (Samples.answering Samples.search_body) "cancer" 5
                     (Some "2024/01/01") (Some "2024/01/31")
                     (Some "2024/01/01") (Some "2024/01/31") Samples.start
                     _ _ eq_refl eq_refl eq_refl eq_refl) _ _ _ _);
      vm_compute; reflexivity.
  - refine (proj2 (search_returns_idlist
                     (Samples.answering (JDict ∅)) "cancer" 5
                     (Some "2024/01/01") (Some "2024/01/31")
                     (Some "2024/01/01") (Some "2024/01/31") Samples.start
                     _ _ eq_refl eq_refl eq_refl eq_refl) _);
      vm_compute; reflexivity.
Defined.

(** C10.  When at least one of the two dates is given, both are sent as
    they were passed: no default is put in place of the one that is
    [None]. *)
Theorem explicit_dates_pass_through (w : World) (term : string) (max_results : Z)
        (mindate maxdate : option string) (s : state) :
  mindate ≠ None ∨ maxdate ≠ None →
  search_dates w mindate maxdate = Return (mindate, maxdate)
  ∧ sent (snd (search_pmc w term max_results mindate maxdate s))
    = sent s ++ [search_request term max_results (of_opt mindate) (of_opt maxdate)].
Proof.
  intros H.
  assert (search_dates w mindate maxdate = Return (mindate, maxdate)) as Hd.
  { destruct mindate, maxdate; try reflexivity. destruct H; congruence. }
  split; [exact Hd|].
  unfold search_pmc. unfold_prog.
  rewrite Hd. cbn.
  destruct (requests_get w _ _) as [r|e]; cbn; [|done].
  destruct (http_error r); cbn; [done|].
  destruct (json r) as [data|e]; cbn; [|done].
  destruct (getitem data "esearchresult") as [x|e]; cbn.
  - destruct (getitem x "idlist") as [y|e]; cbn; [done|]. by destruct (is_KeyError e).
  - by destruct (is_KeyError e).
Qed.

Lemma explicit_dates_pass_through_witness :
  sent (snd (search_pmc (Samples.answering Samples.search_body) "cancer" 5
                        (Some "2024/01/01") None Samples.start))
  = [search_request "cancer" 5 (PStr "2024/01/01") PNone]
  ∧ sent (snd (search_pmc (Samples.answering Samples.search_body) "cancer" 5
                          None (Some "2024/01/31") Samples.start))
    = [search_request "cancer" 5 PNone (PStr "2024/01/31")].
Proof.
  split.
  - refine (proj2 (explicit_dates_pass_through
                     (Samples.answering Samples.search_body) "cancer" 5
                     (Some "2024/01/01") None Samples.start _)).
    left. discriminate.
  - refine (proj2 (explicit_dates_pass_through
                     (Samples.answering Samples.search_body) "cancer" 5
                     None (Some "2024/01/31") Samples.start _)).
    right. discriminate.
Defined.

(** *** The calendar: ordinals and dates *)

Section Calendar.

Local Open Scope Z_scope.

(** A check that holds on every number of a range holds on each. *)
Lemma range_forall (P : Z → bool) (lo : Z) (len : nat) :
  forallb (fun k => P (lo + Z.of_nat k)) (seq 0 len) = true →
  ∀ n, lo <= n < lo + Z.of_nat len → P n = true.
Proof.
  intros H n Hn. rewrite forallb_forall in H.
  specialize (H (Z.to_nat (n - lo))).
  rewrite Z2Nat.id in H by lia.
  replace (lo + (n - lo)) with n in H by lia.
  apply H. apply in_seq. lia.
Qed.

Lemma month_day_ok_all (leapyear : bool) (n : Z) :
  0 <= n < 365 → month_day_ok leapyear n = true.
Proof.
  intros Hn. apply (range_forall (month_day_ok leapyear) 0 365); [|lia].
  destruct leapyear; vm_compute; reflexivity.
Qed.

Lemma month_table_ok_all (leapyear : bool) (m : Z) :
  1 <= m <= 12 → month_table_ok leapyear m = true.
Proof.
  intros Hm. apply (range_forall (month_table_ok leapyear) 1 12); [|lia].
  destruct leapyear; vm_compute; reflexivity.
Qed.

Lemma ord2ymd_split (n : Z) :
  let n0 := n - 1 in
  let n400 := n0 / 146097 in
  let r1 := n0 mod 146097 in
  let n100 := r1 / 36524 in
  let r2 := r1 mod 36524 in
  let n4 := r2 / 1461 in
  let r3 := r2 mod 1461 in
  let n1 := r3 / 365 in
  let r4 := r3 mod 365 in
  let y := n400 * 400 + 1 + n100 * 100 + n4 * 4 + n1 in
  _ord2ymd n =
    if (n1 =? 4) || (n100 =? 4) then (y - 1, 12, 31)
    else
      let '(m, d) :=
        month_day ((n1 =? 3) && (negb (n4 =? 24) || (n100 =? 3))) r4 in
      (y, m, d).
Proof.
  cbv zeta. unfold _ord2ymd, month_day, _DI400Y, _DI100Y, _DI4Y.
  repeat case_match; try reflexivity; congruence.
Qed.

Lemma is_leap_spec (y : Z) :
  _is_leap y = true ↔ (y mod 4 = 0 ∧ (y mod 100 ≠ 0 ∨ y mod 400 = 0)).
Proof.
  unfold _is_leap.
  rewrite andb_true_iff, orb_true_iff, negb_true_iff, !Z.eqb_eq, Z.eqb_neq.
  tauto.
Qed.

(** The 366th day of a leap year. *)
Lemma last_day_arith (n0 n400 r1 n100 r2 n4 r3 n1 r4 : Z) :
  n0 = 146097 * n400 + r1 → 0 <= r1 < 146097 →
  r1 = 36524 * n100 + r2 → 0 <= r2 < 36524 →
  r2 = 1461 * n4 + r3 → 0 <= r3 < 1461 →
  r3 = 365 * n1 + r4 → 0 <= r4 < 365 →
  0 <= n400 → 0 <= n100 <= 4 → 0 <= n4 <= 24 → 0 <= n1 <= 4 →
  n1 = 4 ∨ n100 = 4 →
  let y := n400 * 400 + 1 + n100 * 100 + n4 * 4 + n1 - 1 in
  (y mod 4 = 0 ∧ (y mod 100 ≠ 0 ∨ y mod 400 = 0))
  ∧ _days_before_year y + 366 = n0 + 1.
Proof.
  intros E1 B1 E2 B2 E3 B3 E4 B4 P400 P100 P4 P1 Hsp y.
  unfold _days_before_year. subst y. split.
  - destruct Hsp.
    + assert (n100 <= 3) by lia. assert (n4 <= 23) by lia. split.
      * Z.div_mod_to_equations. lia.
      * left. Z.div_mod_to_equations. lia.
    + assert (n4 = 0) by lia. assert (n1 = 0) by lia. subst. split.
      * Z.div_mod_to_equations. lia.
      * right. Z.div_mod_to_equations. lia.
  - destruct Hsp.
    + assert (n100 <= 3) by lia. assert (n4 <= 23) by lia.
      assert (r4 = 0) by lia. Z.div_mod_to_equations. lia.
    + assert (n4 = 0) by lia. assert (n1 = 0) by lia.
      assert (r4 = 0) by lia. assert (r2 = 0) by lia. subst.
      Z.div_mod_to_equations. lia.
Qed.

(** Any other day: the year found is the right one and the test for a
    leap year that [_ord2ymd] makes on the quotients agrees with
    [_is_leap]. *)
Lemma regular_day_arith (n0 n400 r1 n100 r2 n4 r3 n1 r4 : Z) :
  n0 = 146097 * n400 + r1 → 0 <= r1 < 146097 →
  r1 = 36524 * n100 + r2 → 0 <= r2 < 36524 →
  r2 = 1461 * n4 + r3 → 0 <= r3 < 1461 →
  r3 = 365 * n1 + r4 → 0 <= r4 < 365 →
  0 <= n400 → 0 <= n100 <= 4 → 0 <= n4 <= 24 → 0 <= n1 <= 4 →
  n1 ≠ 4 ∧ n100 ≠ 4 →
  let y := n400 * 400 + 1 + n100 * 100 + n4 * 4 + n1 in
  ((y mod 4 = 0 ∧ (y mod 100 ≠ 0 ∨ y mod 400 = 0))
   ↔ (n1 = 3 ∧ (n4 ≠ 24 ∨ n100 = 3)))
  ∧ _days_before_year y + r4 = n0.
Proof.
  intros E1 B1 E2 B2 E3 B3 E4 B4 P400 P100 P4 P1 Hsp y.
  unfold _days_before_year. subst y. split.
  - split.
    + intros [Ha Hb]. assert (n1 = 3) by (Z.div_mod_to_equations; lia).
      subst n1. split; [reflexivity|].
      destruct (Z.eq_dec n4 24); [|lia]. subst n4. right.
      destruct Hb as [Hb|Hb]; [exfalso; apply Hb|];
        Z.div_mod_to_equations; lia.
    + intros [-> Hb]. split; [Z.div_mod_to_equations; lia|].
      destruct (Z.eq_dec n4 24) as [->|Hne]; [right|left];
        Z.div_mod_to_equations; lia.
  - Z.div_mod_to_equations. lia.
Qed.

(** [_ord2ymd] inverts [_ymd2ord] and yields a date the [datetime]
    constructor accepts. *)
Lemma ord2ymd_correct (n : Z) :
  1 <= n <= _MAXORDINAL →
  let '(y, m, d) := _ord2ymd n in
  1 <= y <= 9999 ∧ 1 <= m <= 12 ∧ 1 <= d <= _days_in_month y m
  ∧ _ymd2ord y m d = n.
Proof.
  intros Hn. unfold _MAXORDINAL in Hn.
  rewrite ord2ymd_split. cbv zeta.
  set (n0 := n - 1).
  pose proof (Z.div_mod n0 146097 ltac:(lia)) as E1.
  pose proof (Z.mod_pos_bound n0 146097 ltac:(lia)) as B1.
  set (n400 := n0 / 146097) in *. set (r1 := n0 mod 146097) in *.
  pose proof (Z.div_mod r1 36524 ltac:(lia)) as E2.
  pose proof (Z.mod_pos_bound r1 36524 ltac:(lia)) as B2.
  set (n100 := r1 / 36524) in *. set (r2 := r1 mod 36524) in *.
  pose proof (Z.div_mod r2 1461 ltac:(lia)) as E3.
  pose proof (Z.mod_pos_bound r2 1461 ltac:(lia)) as B3.
  set (n4 := r2 / 1461) in *. set (r3 := r2 mod 1461) in *.
  pose proof (Z.div_mod r3 365 ltac:(lia)) as E4.
  pose proof (Z.mod_pos_bound r3 365 ltac:(lia)) as B4.
  set (n1 := r3 / 365) in *. set (r4 := r3 mod 365) in *.
  assert (0 <= n400) as P400 by (subst n400; apply Z.div_pos; lia).
  assert (n = n0 + 1) as Hn0 by (subst n0; lia).
  clearbody n0 n400 r1 n100 r2 n4 r3 n1 r4.
  assert (0 <= n100 <= 4) as P100 by lia.
  assert (0 <= n4 <= 24) as P4 by lia.
  assert (0 <= n1 <= 4) as P1 by lia.
  destruct ((n1 =? 4) || (n100 =? 4)) eqn:Hsp.
  - apply orb_true_iff in Hsp. rewrite !Z.eqb_eq in Hsp.
    destruct (last_day_arith _ _ _ _ _ _ _ _ _
                E1 B1 E2 B2 E3 B3 E4 B4 P400 P100 P4 P1 Hsp) as [Hleap Hdby].
    apply is_leap_spec in Hleap.
    unfold _ymd2ord, _days_in_month, _days_before_month.
    rewrite Hleap.
    change ((12 =? 2) && true) with false. change ((2 <? 12) && true) with true.
    cbv iota.
    change (_DAYS_IN_MONTH 12) with 31. change (_DAYS_BEFORE_MONTH 12) with 334.
    lia.
  - apply orb_false_iff in Hsp. rewrite !Z.eqb_neq in Hsp.
    destruct (regular_day_arith _ _ _ _ _ _ _ _ _
                E1 B1 E2 B2 E3 B3 E4 B4 P400 P100 P4 P1 Hsp) as [Hleap Hdby].
    set (leapyear := (n1 =? 3) && (negb (n4 =? 24) || (n100 =? 3))).
    set (y := n400 * 400 + 1 + n100 * 100 + n4 * 4 + n1) in *.
    assert (_is_leap y = leapyear) as Hl.
    { subst leapyear. apply eq_true_iff_eq. rewrite is_leap_spec, Hleap.
      rewrite andb_true_iff, orb_true_iff, negb_true_iff, !Z.eqb_eq, Z.eqb_neq.
      tauto. }
    pose proof (month_day_ok_all leapyear r4 B4) as Hmd.
    unfold month_day_ok in Hmd. destruct (month_day leapyear r4) as [m d].
    rewrite !andb_true_iff, !Z.leb_le, Z.eqb_eq in Hmd.
    destruct Hmd as ((((Hm1 & Hm2) & Hd1) & Hd2) & Hsum).
    unfold _ymd2ord, _days_in_month, _days_before_month.
    rewrite Hl.
    split; [subst y; lia|]. split; [lia|]. split; [|lia].
    split; [lia|]. destruct ((m =? 2) && leapyear) eqn:E; [|lia].
    apply andb_true_iff in E as [E _]. apply Z.eqb_eq in E. subst m.
    change (_DAYS_IN_MONTH 2) with 28 in Hd2. lia.
Qed.

End Calendar.

Section Formatting.

Local Open Scope Z_scope.

(** The day number of a date that [datetime] accepts. *)
Lemma toordinal_bounds (d : datetime) :
  valid d → 1 <= toordinal d <= _MAXORDINAL + 15.
Proof.
  destruct d as [y m dd sod]. intros (Hy & Hm & Hd). cbn in Hy, Hm, Hd.
  unfold toordinal, _ymd2ord, _days_before_month, _days_before_year, _MAXORDINAL.
  cbn [year month day].
  unfold _days_in_month in Hd.
  pose proof (month_table_ok_all (_is_leap y) m Hm) as Ht.
  unfold month_table_ok in Ht. cbv zeta in Ht.
  rewrite !andb_true_iff, !Z.leb_le in Ht. destruct Ht as [[Ht1 Ht2] Ht3].
  cbv zeta. destruct ((2 <? m) && _is_leap y); Z.div_mod_to_equations; lia.
Qed.

Lemma digit_value_digit (n : Z) : digit_value (digit n) = Some (n mod 10).
Proof.
  unfold digit.
  pose proof (Z.mod_pos_bound n 10 ltac:(lia)) as B.
  assert (n mod 10 = 0 ∨ n mod 10 = 1 ∨ n mod 10 = 2 ∨ n mod 10 = 3
          ∨ n mod 10 = 4 ∨ n mod 10 = 5 ∨ n mod 10 = 6 ∨ n mod 10 = 7
          ∨ n mod 10 = 8 ∨ n mod 10 = 9) as Hcases by lia.
  repeat (destruct Hcases as [E|Hcases]; [rewrite E; reflexivity|]).
  rewrite Hcases. reflexivity.
Qed.

(** The text [strftime] produces reads back as the date. *)
Lemma parse_strftime (d : datetime) :
  0 <= year d <= 9999 → 0 <= month d <= 99 → 0 <= day d <= 99 →
  parse_ymd (strftime_ymd d) = Some (year d, month d, day d).
Proof.
  intros Hy Hm Hd.
  change (strftime_ymd d) with
    (String (digit (year d / 1000)) (String (digit (year d / 100))
      (String (digit (year d / 10)) (String (digit (year d))
        (String "/" (String (digit (month d / 10)) (String (digit (month d))
          (String "/" (String (digit (day d / 10)) (String (digit (day d))
            EmptyString)))))))))).
  unfold parse_ymd. change (is_slash "/" && is_slash "/") with true. cbv iota.
  rewrite !digit_value_digit. cbn [mbind option_bind].
  f_equal. f_equal; [f_equal|]; Z.div_mod_to_equations; lia.
Qed.

End Formatting.

(** C6.  Without explicit dates the request carries a window of 15 days
    that ends today: [maxdate] is the current date, [mindate] is the date
    whose day number is 15 less, and both are written [YYYY/MM/DD]. *)
Theorem default_window_is_15_days (w : World) (term : string) (max_results : Z)
        (s : state) :
  valid (now w) →
  (15 < toordinal (now w))%Z →
  ∃ start_date,
    sub_days (now w) 15 = Return start_date
    ∧ valid start_date
    ∧ toordinal start_date = (toordinal (now w) - 15)%Z
    ∧ sent (snd (search_pmc w term max_results None None s))
      = sent s ++ [search_request term max_results
                                  (PStr (strftime_ymd start_date))
                                  (PStr (strftime_ymd (now w)))]
    ∧ parse_ymd (strftime_ymd start_date)
      = Some (year start_date, month start_date, day start_date)
    ∧ parse_ymd (strftime_ymd (now w))
      = Some (year (now w), month (now w), day (now w)).
Proof.
  intros Hv Hlo.
  pose proof (toordinal_bounds _ Hv) as Hb.
  assert (1 <= toordinal (now w) - 15 <= _MAXORDINAL)%Z as Hn by lia.
  pose proof (ord2ymd_correct _ Hn) as Hc.
  unfold sub_days.
  replace ((0 <? toordinal (now w) - 15)%Z
           && (toordinal (now w) - 15 <=? _MAXORDINAL)%Z) with true
    by (symmetry; apply andb_true_iff; split; [apply Z.ltb_lt|apply Z.leb_le]; lia).
  destruct (_ord2ymd (toordinal (now w) - 15)) as [[y m] d] eqn:Ho.
  destruct Hc as (Hy & Hm & Hd & Hord).
  eexists. split; [reflexivity|].
  assert (valid (mkDatetime y m d (seconds_of_day (now w)))) as Hvs
      by (repeat split; cbn; lia).
  split; [exact Hvs|]. split; [exact Hord|]. split.
  - unfold search_pmc, search_dates, sub_days. unfold_prog.
    replace ((0 <? toordinal (now w) - 15)%Z
             && (toordinal (now w) - 15 <=? _MAXORDINAL)%Z) with true
      by (symmetry; apply andb_true_iff; split; [apply Z.ltb_lt|apply Z.leb_le]; lia).
    rewrite Ho. cbn.
    destruct (requests_get w _ _) as [r|e]; cbn; [|done].
    destruct (http_error r); cbn; [done|].
    destruct (json r) as [data|e]; cbn; [|done].
    destruct (getitem data "esearchresult") as [x|e]; cbn.
    + destruct (getitem x "idlist") as [ids|e]; cbn; [done|]. by destruct (is_KeyError e).
    + by destruct (is_KeyError e).
  - assert (∀ dt, valid dt →
                  parse_ymd (strftime_ymd dt) = Some (year dt, month dt, day dt)) as Hp.
    { intros dt (Hy' & Hm' & Hd'). apply parse_strftime; try lia.
      unfold _days_in_month in Hd'.
      pose proof (month_table_ok_all (_is_leap (year dt)) (month dt) Hm') as Ht.
      unfold month_table_ok in Ht. cbv zeta in Ht.
      rewrite !andb_true_iff, !Z.leb_le in Ht. lia. }
    split; [exact (Hp _ Hvs)|exact (Hp _ Hv)].
Qed.

Lemma default_window_is_15_days_witness :
  sent (snd (search_pmc (Samples.answering Samples.search_body) "cancer" 5
                        None None Samples.start))
  = [search_request "cancer" 5 (PStr "2024/02/24") (PStr "2024/03/10")].
Proof.
  assert (valid (now (Samples.answering Samples.search_body))) as Hv
      by (repeat split; apply Z.leb_le; vm_compute; reflexivity).
  assert (15 < toordinal (now (Samples.answering Samples.search_body)))%Z as Hlo
      by (vm_compute; reflexivity).
  destruct (default_window_is_15_days
              (Samples.answering Samples.search_body) "cancer" 5 Samples.start
              Hv Hlo) as (start_date & Hs & _ & _ & Hsent & _).
  vm_compute in Hs. injection Hs as <-. exact Hsent.
Defined.

(** * Properties of download_article_files *)

(** C7.  When the query to the open-access service fails in transport
    (the request itself raises, or the status check raises), the error is
    printed and the function returns: nothing is raised and no file or
    directory is touched. *)
Theorem oa_transport_failure_logged (w : World) (pmcid save_dir msg : string)
        (s : state) :
  (requests_get w "https://www.ncbi.nlm.nih.gov/pmc/utils/oa/oa.fcgi"
                [("id", PStr pmcid)] = Raise (RequestException msg)
   ∨ ∃ r, requests_get w "https://www.ncbi.nlm.nih.gov/pmc/utils/oa/oa.fcgi"
                       [("id", PStr pmcid)] = Return r
          ∧ http_error r = Some msg) →
  ∃ s',
    download_article_files w pmcid save_dir s = (Return tt, s')
    ∧ stdout s' = stdout s ++ ["Error querying OA API for " +:+ pmcid +:+ ": " +:+ msg]
    ∧ fs s' = fs s.
Proof.
  intros H.
  unfold download_article_files, query_oa. unfold_prog.
  destruct H as [H|(r & H & He)]; rewrite H; cbn; [|rewrite He; cbn];
    eexists; (split; [reflexivity|]); split; reflexivity.
Qed.

Lemma oa_transport_failure_logged_witness :
  (∃ s',
      download_article_files Samples.unreachable "PMC1" "downloads" Samples.start
      = (Return tt, s')
      ∧ stdout s' = ["Error querying OA API for PMC1: Connection refused"]
      ∧ fs s' = Samples.empty_fs)
  ∧ (∃ s',
        download_article_files Samples.rejecting "PMC1" "downloads" Samples.start
        = (Return tt, s')
        ∧ stdout s' = ["Error querying OA API for PMC1: 404 Client Error: Not Found"]
        ∧ fs s' = Samples.empty_fs).
Proof.
  split.
  - apply (oa_transport_failure_logged Samples.unreachable "PMC1" "downloads"
             "Connection refused" Samples.start).
    left. reflexivity.
  - apply (oa_transport_failure_logged Samples.rejecting "PMC1" "downloads"
             "404 Client Error: Not Found" Samples.start).
    right. eexists. split; reflexivity.
Defined.

(** C5.  When the answer of the open-access service holds an [error]
    node, the code and the message of that node are printed and the
    function returns: nothing is raised, no file is written, and here no
    directory is made either. *)
Theorem oa_error_node_logged (w : World) (pmcid save_dir : string) (s : state)
        (r : Response) (root error : Element) :
  requests_get w "https://www.ncbi.nlm.nih.gov/pmc/utils/oa/oa.fcgi"
               [("id", PStr pmcid)] = Return r →
  http_error r = None →
  fromstring w (content r) = Some root →
  find root (Descendant "error") = Some error →
  ∃ s',
    download_article_files w pmcid save_dir s = (Return tt, s')
    ∧ stdout s' = stdout s ++ ["OA API Error for " +:+ pmcid +:+ ": "
                                 +:+ fmt (get error "code") +:+ " - "
                                 +:+ fmt (text error)]
    ∧ fs s' = fs s.
Proof.
  intros Hr He Hp Herr.
  unfold download_article_files, query_oa. unfold_prog.
  rewrite Hr. cbn. rewrite He. cbn. rewrite Hp, Herr.
  eexists. split; [reflexivity|]. split; reflexivity.
Qed.

Lemma oa_error_node_logged_witness :
  ∃ s',
    download_article_files (Samples.serving Samples.oa_error) "PMC1" "downloads"
                           Samples.start
    = (Return tt, s')
    ∧ stdout s'
      = ["OA API Error for PMC1: idIsNotOpenAccess - identifier is not Open Access"]
    ∧ fs s' = Samples.empty_fs.
Proof.
  exact (oa_error_node_logged
           (Samples.serving Samples.oa_error) "PMC1" "downloads" Samples.start
           (mkResponse None "<xml/>" (Raise (ValueError "not JSON")) [] None)
           Samples.oa_error
           (mkElement "error" [("code", "idIsNotOpenAccess")]
                      (Some "identifier is not Open Access") None [])
           eq_refl eq_refl eq_refl eq_refl).
Defined.

(** *** Names: how file names and standard names end *)

Lemma append_assoc (a b c : string) : (a +:+ b) +:+ c = a +:+ (b +:+ c).
Proof. induction a as [|x a IH]; simpl; [done|]. unfold String.append in *. simpl. by rewrite IH. Qed.

Lemma endswith_iff (s suf : string) :
  endswith s suf = true ↔ ∃ pre, s = pre +:+ suf.
Proof.
  split.
  - induction s as [|c s IH]; simpl; rewrite orb_true_iff, bool_decide_eq_true.
    + intros [->|?]; [by exists ""|done].
    + intros [->|H]; [by exists ""|].
      destruct (IH H) as [pre ->]. by exists (String c pre).
  - intros [pre ->]. induction pre as [|c pre IH].
    + change ("" +:+ suf) with suf.
      destruct suf; [reflexivity|]. simpl. by rewrite bool_decide_eq_true_2.
    + change (String c pre +:+ suf) with (String c (pre +:+ suf)).
      simpl. rewrite IH. apply orb_true_r.
Qed.

Lemma lower_append (a b : string) : lower (a +:+ b) = lower a +:+ lower b.
Proof.
  induction a as [|c a IH]; [done|].
  change (String c a +:+ b) with (String c (a +:+ b)). simpl. rewrite IH. done.
Qed.

Lemma path_join_ends (a b : string) : ∃ pre, path_join a b = pre +:+ b.
Proof.
  unfold path_join. destruct (startswith b "/"); [by exists ""|].
  destruct (_ || _); [by exists a|].
  exists (a +:+ "/"). by rewrite append_assoc.
Qed.

Lemma length_append (a b : string) :
  String.length (a +:+ b) = (String.length a + String.length b)%nat.
Proof.
  induction a as [|c a IH]; [done|].
  change (String c a +:+ b) with (String c (a +:+ b)). simpl. by rewrite IH.
Qed.

Lemma append_same_length (a b c d : string) :
  String.length c = String.length d → a +:+ c = b +:+ d → c = d.
Proof.
  intros Hl H.
  assert (String.length a = String.length b) as Hab.
  { apply (f_equal String.length) in H. rewrite !length_append in H. lia. }
  clear Hl. revert b H Hab. induction a as [|x a IH]; intros [|y b] H Hab; try discriminate.
  - exact H.
  - change (String x (a +:+ c) = String y (b +:+ d)) in H. injection H as _ H.
    apply (IH b H). simpl in Hab. lia.
Qed.

Lemma endings_clash (s : string) (k k' : kind) :
  endswith s (ending k) = true → endswith s (ending k') = true → k = k'.
Proof.
  rewrite !endswith_iff. intros [p1 ->] [p2 H].
  apply append_same_length in H; [|by destruct k, k'].
  destruct k, k'; done.
Qed.

Lemma endswith_trans (s a b : string) :
  endswith s a = true → endswith a b = true → endswith s b = true.
Proof.
  rewrite !endswith_iff. intros [p ->] [q ->]. exists (p +:+ q). by rewrite append_assoc.
Qed.

Lemma kind_of_ending (file : string) (k : kind) :
  kind_of file = Some k → endswith (lower file) (ending k) = true.
Proof.
  unfold kind_of. destruct (endswith (lower file) ".pdf") eqn:E1.
  - intros [= <-]. eapply endswith_trans; [exact E1|reflexivity].
  - destruct (endswith (lower file) ".nxml") eqn:E2; simpl.
    + intros [= <-]. eapply endswith_trans; [exact E2|reflexivity].
    + destruct (endswith (lower file) ".xml") eqn:E3; [|done].
      intros [= <-]. eapply endswith_trans; [exact E3|reflexivity].
Qed.

Lemma source_ending (root_path file : string) (k : kind) :
  kind_of file = Some k → endswith (lower (path_join root_path file)) (ending k) = true.
Proof.
  intros H. apply kind_of_ending in H.
  destruct (path_join_ends root_path file) as [pre ->].
  rewrite lower_append. eapply endswith_trans; [|exact H].
  apply endswith_iff. by eexists.
Qed.

Lemma target_ending (pmcid article_dir : string) (k : kind) :
  endswith (lower (target pmcid article_dir k)) (ending k) = true.
Proof.
  unfold target. destruct (path_join_ends article_dir (pmcid +:+ extension k)) as [pre ->].
  rewrite !lower_append. apply endswith_iff.
  destruct k; [exists (lower pre +:+ lower pmcid +:+ ".")|exists (lower pre +:+ lower pmcid +:+ ".n")];
    rewrite !append_assoc; reflexivity.
Qed.

Lemma source_not_target (pmcid article_dir : string) (x : string * string) (k k' : kind) :
  kind_of (snd x) = Some k → k' ≠ k → source x ≠ target pmcid article_dir k'.
Proof.
  intros Hk Hne Heq. apply Hne. symmetry.
  eapply endings_clash; [apply (source_ending (fst x)), Hk|].
  unfold source in Heq. rewrite Heq. apply target_ending.
Qed.

Lemma targets_differ (pmcid article_dir : string) (k k' : kind) :
  k ≠ k' → target pmcid article_dir k ≠ target pmcid article_dir k'.
Proof.
  intros Hne Heq. apply Hne.
  eapply endings_clash; [apply target_ending|]. rewrite Heq. apply target_ending.
Qed.

(** *** The renaming loop *)

Lemma rename_file_kind (pmcid article_dir root_path file : string) :
  rename_file pmcid article_dir root_path file
  = match kind_of file with
    | Some k => rename_to pmcid article_dir k root_path file
    | None => mret tt
    end.
Proof.
  unfold rename_file, kind_of.
  destruct (endswith (lower file) ".pdf"); [reflexivity|].
  destruct (endswith (lower file) ".nxml" || endswith (lower file) ".xml"); reflexivity.
Qed.

Lemma rename_to_run (pmcid article_dir : string) (k : kind) (root_path file : string)
      (s : state) :
  rename_to pmcid article_dir k root_path file s
  = if exists_ (fs s) (target pmcid article_dir k) then (Return tt, s)
    else match files (fs s) !! path_join root_path file with
         | Some data =>
             (Return tt,
              mkState (mkFS (<[target pmcid article_dir k := data]>
                               (delete (path_join root_path file) (files (fs s))))
                            (dirs (fs s)))
                      (stdout s ++ ["Renamed " +:+ file +:+ " to " +:+ pmcid +:+ extension k])
                      (sent s) (downloaded_something s))
         | None =>
             (Raise (OSError ("No such file or directory: " +:+ path_join root_path file)), s)
         end.
Proof.
  unfold rename_to, mbind, prog_bind, path_exists, with_fs, rename, print.
  destruct (exists_ (fs s) _); cbn; [reflexivity|].
  destruct (files (fs s) !! _); reflexivity.
Qed.

Lemma rename_met_app (pmcid article_dir : string) (l1 l2 : list (string * string)) (s : state) :
  rename_met pmcid article_dir (l1 ++ l2) s
  = (_ ← rename_met pmcid article_dir l1; rename_met pmcid article_dir l2) s.
Proof.
  revert s. induction l1 as [|x l1 IH]; intros s; [reflexivity|].
  cbn [app rename_met]. unfold mbind, prog_bind in *.
  destruct (rename_file _ _ _ _ s) as [[[]|e] s1]; [apply IH|reflexivity].
Qed.

Lemma rename_files_met (pmcid article_dir root_path : string) (names : list string) (s : state) :
  rename_files pmcid article_dir root_path names s
  = rename_met pmcid article_dir (List.map (pair root_path) names) s.
Proof.
  revert s. induction names as [|f names IH]; intros s; [reflexivity|].
  cbn [rename_files List.map rename_met fst snd]. unfold mbind, prog_bind.
  destruct (rename_file _ _ _ _ s) as [[[]|e] s1]; [apply IH|reflexivity].
Qed.

Lemma rename_walk_met (pmcid article_dir : string) (entries : list (string * list string))
      (s : state) :
  rename_walk pmcid article_dir entries s
  = rename_met pmcid article_dir (encountered entries) s.
Proof.
  revert s. induction entries as [|[root_path names] entries IH]; intros s; [reflexivity|].
  cbn [rename_walk encountered flat_map fst snd]. rewrite rename_met_app.
  unfold mbind, prog_bind. rewrite rename_files_met.
  destruct (rename_met _ _ _ s) as [[[]|e] s1]; [apply IH|reflexivity].
Qed.

Lemma moved_lookup (m : gmap string string) (src tgt data p : string) :
  p ≠ src → p ≠ tgt → (<[tgt := data]> (delete src m)) !! p = m !! p.
Proof. intros H1 H2. by rewrite lookup_insert_ne, lookup_delete_ne. Qed.

Lemma exists_false (f : FS) (p : string) :
  exists_ f p = false → files f !! p = None.
Proof.
  unfold exists_, is_file. intros H. apply orb_false_iff in H as [H _].
  apply bool_decide_eq_false in H. by apply eq_None_not_Some.
Qed.

Lemma exists_agree (f f' : FS) (p : string) :
  dirs f' = dirs f → files f' !! p = files f !! p → exists_ f' p = exists_ f p.
Proof. unfold exists_, is_file, is_dir. by intros -> ->. Qed.

Lemma of_kind_cons (k : kind) (x : string * string) (met : list (string * string)) :
  of_kind k (x :: met)
  = if bool_decide (kind_of (snd x) = Some k) then x :: of_kind k met else of_kind k met.
Proof. reflexivity. Qed.

Lemma of_kind_source (k : kind) (x : string * string) (met : list (string * string)) :
  x ∈ of_kind k met → source x ∈ List.map source met.
Proof.
  unfold of_kind. rewrite list_elem_of_In, filter_In. intros [H _].
  apply list_elem_of_In, in_map, H.
Qed.

Lemma renamed_once_agree (pmcid article_dir : string) (k : kind)
      (met : list (string * string)) (before before' after : FS) :
  dirs before' = dirs before →
  files before' !! target pmcid article_dir k = files before !! target pmcid article_dir k →
  (∀ x, x ∈ of_kind k met → files before' !! source x = files before !! source x) →
  renamed_once pmcid article_dir k met before' after →
  renamed_once pmcid article_dir k met before after.
Proof.
  intros Hd Ht Hs. unfold renamed_once. cbv zeta.
  rewrite (exists_agree before before' _ Hd Ht).
  destruct (exists_ before _).
  - intros [H1 H2]. split; [congruence|]. intros x Hx. rewrite (H2 x Hx). auto.
  - destruct (of_kind k met) as [|x rest]; [done|].
    intros (H1 & H2 & H3). split; [|split; [done|]].
    + rewrite H1. apply Hs. left.
    + intros y Hy. rewrite (H3 y Hy). apply Hs. by right.
Qed.

Lemma renamed_once_skip (pmcid article_dir : string) (k : kind) (x : string * string)
      (met : list (string * string)) (before after : FS) :
  kind_of (snd x) ≠ Some k →
  renamed_once pmcid article_dir k met before after →
  renamed_once pmcid article_dir k (x :: met) before after.
Proof.
  intros Hk. unfold renamed_once. cbv zeta.
  by rewrite of_kind_cons, bool_decide_eq_false_2.
Qed.

Lemma rename_met_effect (pmcid article_dir : string) (met : list (string * string)) :
  ∀ s, listing_ok (fs s) met →
    ∃ s', rename_met pmcid article_dir met s = (Return tt, s')
      ∧ dirs (fs s') = dirs (fs s)
      ∧ downloaded_something s' = downloaded_something s
      ∧ (∀ p, p ∉ List.map source met →
              (∀ k, p ≠ target pmcid article_dir k) →
              files (fs s') !! p = files (fs s) !! p)
      ∧ ∀ k, renamed_once pmcid article_dir k met (fs s) (fs s').
Proof.
  induction met as [|x rest IH]; intros s [Hnd Hall].
  - exists s. repeat split; try done.
    intros k. unfold renamed_once. cbv zeta.
    destruct (exists_ (fs s) _) eqn:Hex; [done|]. cbn. by apply exists_false.
  - cbn [List.map] in Hnd. apply NoDup_cons in Hnd as [Hx Hnd].
    apply Forall_cons in Hall as [[data Hdata] Hall].
    cbn [rename_met]. unfold mbind at 1, prog_bind at 1. rewrite rename_file_kind.
    destruct (kind_of (snd x)) as [k|] eqn:Hk.
    + rewrite rename_to_run. destruct (exists_ (fs s) (target pmcid article_dir k)) eqn:Hex.
      * (* the name is taken: the file stays *)
        destruct (IH s (conj Hnd Hall)) as (s' & Hrun & Hdirs & Hflag & Hframe & Honce).
        exists s'. split; [exact Hrun|]. split; [exact Hdirs|]. split; [exact Hflag|]. split.
        { intros p Hp Ht. apply Hframe; [|exact Ht]. intros Hin. apply Hp. by right. }
        intros k0. specialize (Honce k0). unfold renamed_once in *. cbv zeta in *.
        rewrite of_kind_cons. destruct (decide (k0 = k)) as [->|Hne].
        -- rewrite bool_decide_eq_true_2 by done. rewrite Hex in *.
           destruct Honce as [Ht Hrest]. split; [exact Ht|].
           intros y Hy. apply elem_of_cons in Hy as [->|Hy]; [|by apply Hrest].
           destruct (decide (source x = target pmcid article_dir k)) as [->|Hst]; [exact Ht|].
           apply Hframe; [exact Hx|].
           intros k'. destruct (decide (k' = k)) as [->|Hk']; [exact Hst|].
           by apply (source_not_target _ _ _ k).
        -- rewrite bool_decide_eq_false_2 by congruence. exact Honce.
      * (* the file is moved to the standard name *)
        assert (files (fs s) !! target pmcid article_dir k = None) as Hfree
            by (by apply exists_false).
        assert (source x ≠ target pmcid article_dir k) as Hst by congruence.
        change (path_join (fst x) (snd x)) with (source x). rewrite Hdata.
        set (s1 := mkState _ _ _ _).
        assert (∀ p, p ∈ List.map source rest → files (fs s1) !! p = files (fs s) !! p) as Hkeep.
        { intros p Hp. subst s1. cbn. apply moved_lookup; [by intros ->|].
          apply list_elem_of_In, in_map_iff in Hp as (y & <- & Hy).
          rewrite Forall_forall in Hall. destruct (Hall y (proj2 (list_elem_of_In _ _) Hy)) as [d Hd].
          congruence. }
        assert (listing_ok (fs s1) rest) as Hok.
        { split; [exact Hnd|]. rewrite Forall_forall in *. intros y Hy.
          rewrite Hkeep; [by apply Hall|]. apply list_elem_of_In, in_map, list_elem_of_In, Hy. }
        destruct (IH s1 Hok) as (s' & Hrun & Hdirs & Hflag & Hframe & Honce).
        exists s'. split; [exact Hrun|]. split; [exact Hdirs|]. split; [exact Hflag|].
        assert (files (fs s') !! source x = None) as Hgone.
        { rewrite Hframe; [|exact Hx|].
          - subst s1. cbn. rewrite lookup_insert_ne by done. apply lookup_delete_eq.
          - intros k'. destruct (decide (k' = k)) as [->|Hk']; [exact Hst|].
            by apply (source_not_target _ _ _ k). }
        split.
        { intros p Hp Ht. rewrite Hframe; [|intros Hin; apply Hp; by right|exact Ht].
          subst s1. cbn. apply moved_lookup; [|apply Ht].
          intros ->. apply Hp. left. }
        intros k0. specialize (Honce k0). destruct (decide (k0 = k)) as [->|Hne].
        -- unfold renamed_once in *. cbv zeta in *.
           rewrite of_kind_cons, bool_decide_eq_true_2 by done. rewrite Hex.
           assert (exists_ (fs s1) (target pmcid article_dir k) = true) as Hex1.
           { unfold exists_, is_file. subst s1. cbn. rewrite lookup_insert_eq.
             rewrite bool_decide_eq_true_2 by eauto. reflexivity. }
           rewrite Hex1 in Honce. destruct Honce as [Ht Hrest].
           split; [|split; [exact Hgone|]].
           ++ rewrite Ht. subst s1. cbn. rewrite lookup_insert_eq. by rewrite Hdata.
           ++ intros y Hy. rewrite (Hrest y Hy). apply Hkeep. eapply of_kind_source, Hy.
        -- apply renamed_once_skip; [congruence|].
           apply (renamed_once_agree _ _ _ rest _ (fs s1)).
           ++ reflexivity.
           ++ subst s1. cbn. apply moved_lookup.
              ** intros Heq. symmetry in Heq. revert Heq. by apply (source_not_target _ _ _ k).
              ** by apply targets_differ.
           ++ intros y Hy. apply Hkeep. eapply of_kind_source, Hy.
           ++ exact Honce.
    + (* neither kind: the file is passed over *)
      destruct (IH s (conj Hnd Hall)) as (s' & Hrun & Hdirs & Hflag & Hframe & Honce).
      exists s'. split; [exact Hrun|]. split; [exact Hdirs|]. split; [exact Hflag|]. split.
      { intros p Hp Ht. apply Hframe; [|exact Ht]. intros Hin. apply Hp. by right. }
      intros k0. apply renamed_once_skip; [congruence|]. apply Honce.
Qed.

(** With a [tgz] link and no [pdf] or [xml] link, the function goes
    straight from making the directory to the archive. *)
Lemma archive_path_runs (w : World) (pmcid save_dir href : string) (root : Element)
      (s : state) (made : FS) :
  makedirs (path_join save_dir pmcid) (fs s) = Return made →
  collect_links (findall root (Descendant "link")) ∅ !! Some "pdf" = None →
  collect_links (findall root (Descendant "link")) ∅ !! Some "xml" = None →
  collect_links (findall root (Descendant "link")) ∅ !! Some "tgz" = Some href →
  download_links w pmcid save_dir root s
  = (_ ← download_package w pmcid (path_join save_dir pmcid) href;
     d ← get_downloaded;
     if negb d then
       print ("No accessible files found for " +:+ pmcid
                +:+ " (might not be Open Access).")
     else mret tt)
      (mkState made (stdout s) (sent s) false).
Proof.
  intros Hmk Hpdf Hxml Htgz.
  unfold download_links, with_fs.
  unfold mbind at 1, prog_bind at 1. rewrite Hmk.
  unfold mbind at 1, prog_bind at 1, set_downloaded. cbn [fs stdout sent].
  rewrite Hpdf, Hxml, Htgz.
  rewrite bool_decide_eq_false_2 by (intros [? ?]; discriminate).
  reflexivity.
Qed.

(** C4, as amended.  When the archive path runs and the archive is
    fetched and unpacked, the archive file is deleted (afterwards its path
    is vacant, or holds an unpacked file that the loop renamed to it) and,
    for each of the two kinds: if the standard name is free when the loop starts, the
    first file of the kind that is met is moved to the standard name and
    every later file of the kind stays as it is; if the standard name is
    taken when the loop starts, no file of the kind is moved, the first one
    included, and the entry under the standard name stays as it is. *)
Theorem archive_files_renamed (w : World) (pmcid article_dir href : string)
        (s : state) (r : Response) (fs0 fs1 : FS) :
  let tgz_path := path_join article_dir (basename href) in
  let archive := join_empty (body_chunks r) in
  let fs2 := mkFS (delete tgz_path (files fs1)) (dirs fs1) in
  let met := encountered (walk w fs2 article_dir) in
  requests_get w href [] = Return r →
  http_error r = None →
  stream_error r = None →
  write_file tgz_path archive (fs s) = Return fs0 →
  extractall w archive article_dir fs0 = Return fs1 →
  is_Some (files fs1 !! tgz_path) →
  listing_ok fs2 met →
  ∃ s',
    download_package w pmcid article_dir href s = (Return tt, s')
    ∧ downloaded_something s' = true
    ∧ (files (fs s') !! tgz_path = None
       ∨ ∃ k x, tgz_path = target pmcid article_dir k
                ∧ x ∈ met
                ∧ files (fs s') !! tgz_path = files fs2 !! source x)
    ∧ ∀ k, renamed_once pmcid article_dir k met fs2 (fs s').
Proof.
  intros tgz_path archive fs2 met Hget Hhttp Hstream Hwrite Hextract [old Hold] Hok.
  assert (files fs0 !! tgz_path = Some archive) as Hstored.
  { unfold write_file in Hwrite. repeat case_match; try discriminate.
    injection Hwrite as <-. cbn. apply lookup_insert_eq. }
  set (s2 := mkState fs2
                     ((stdout s ++ ["Downloading OA Package (TGZ): "
                                      +:+ basename href +:+ "..."])
                        ++ ["Extracting " +:+ basename href +:+ "..."])
                     (sent s ++ [(href, [])]) true).
  destruct (rename_met_effect pmcid article_dir met s2 Hok)
    as (s' & Hrun & Hdirs & Hflag & Hframe & Honce).
  exists s'. split; [|split; [exact Hflag|split; [|exact Honce]]].
  - unfold download_package, download_to, extract_package, unpack, rename_extracted,
      try_except, mbind, prog_bind, print, get_request, lift, raise_for_status, with_fs,
      set_downloaded.
    cbn. rewrite Hget. cbn. rewrite Hhttp. cbn.
    fold tgz_path. fold archive. rewrite Hwrite. cbn. rewrite Hstream. cbn.
    rewrite Hstored. cbn. rewrite Hextract. cbn.
    unfold remove. rewrite Hold. cbn.
    match goal with
    | |- context [rename_walk ?a ?b ?c ?d] =>
        change (rename_walk a b c d)
          with (rename_walk pmcid article_dir (walk w fs2 article_dir) s2)
    end.
    rewrite rename_walk_met. fold met. rewrite Hrun. reflexivity.
  - assert (files fs2 !! tgz_path = None) as Hdeleted
        by (subst fs2; cbn; apply lookup_delete_eq).
    assert (∀ k, tgz_path = target pmcid article_dir k →
                 files (fs s') !! tgz_path = None
                 ∨ ∃ k x, tgz_path = target pmcid article_dir k
                          ∧ x ∈ met
                          ∧ files (fs s') !! tgz_path = files fs2 !! source x) as Hnamed.
    { intros k Hk. specialize (Honce k). unfold renamed_once in Honce.
      cbv zeta in Honce. rewrite <- Hk in Honce.
      destruct (exists_ (fs s2) tgz_path).
      - left. destruct Honce as [-> _]. exact Hdeleted.
      - destruct (of_kind k met) as [|x rest] eqn:Hkind; [by left|].
        right. exists k, x. split; [exact Hk|]. split; [|apply Honce].
        assert (x ∈ of_kind k met) as Hx by (rewrite Hkind; left).
        unfold of_kind in Hx. apply list_elem_of_In, filter_In in Hx as [Hx _].
        by apply list_elem_of_In. }
    destruct (decide (tgz_path = target pmcid article_dir Pdf)) as [Hp|Hp];
      [by apply (Hnamed Pdf)|].
    destruct (decide (tgz_path = target pmcid article_dir Nxml)) as [Hn|Hn];
      [by apply (Hnamed Nxml)|].
    left. rewrite Hframe; [exact Hdeleted| |by intros []].
    intros Hin. apply list_elem_of_In, in_map_iff in Hin as (y & Hy & Hin).
    destruct Hok as [_ Hall]. rewrite Forall_forall in Hall.
    destruct (Hall y (proj2 (list_elem_of_In _ _) Hin)) as [d Hd].
    rewrite Hy in Hd. congruence.
Qed.

Lemma archive_files_renamed_witness :
  ∃ s',
    download_package Samples.pdf_and_xml "PMC1" "downloads/PMC1" Samples.package_href Samples.prepared
    = (Return tt, s')
    ∧ files (fs s') !! "downloads/PMC1/PMC1.tar.gz" = None
    ∧ files (fs s') !! "downloads/PMC1/PMC1.pdf" = Some "P"
    ∧ files (fs s') !! "downloads/PMC1/PMC1/main.pdf" = None
    ∧ files (fs s') !! "downloads/PMC1/PMC1/second.PDF" = Some "Q"
    ∧ files (fs s') !! "downloads/PMC1/PMC1.nxml" = Some "X"
    ∧ files (fs s') !! "downloads/PMC1/PMC1/article.nxml" = None.
Proof.
  pose (r := mkResponse None "<OA/>" (Raise (ValueError "not JSON")) ["TGZ"] None).
  pose (fs0 := mkFS {[ "downloads/PMC1/PMC1.tar.gz" := "TGZ" ]}
                    {[ "downloads"; "downloads/PMC1" ]}).
  pose (fs1 := Samples.unpack_into "downloads/PMC1"
                 [("PMC1/main.pdf", "P"); ("PMC1/second.PDF", "Q");
                  ("PMC1/article.nxml", "X")] fs0).
  destruct (archive_files_renamed Samples.pdf_and_xml "PMC1" "downloads/PMC1" Samples.package_href
              Samples.prepared r fs0 fs1)
    as (s' & Hrun & _ & Hgone & Honce).
  - reflexivity.
  - reflexivity.
  - reflexivity.
  - vm_compute. reflexivity.
  - reflexivity.
  - vm_compute. eauto.
  - split.
    + apply (bool_decide_unpack _). vm_compute. reflexivity.
    + apply (bool_decide_unpack _). vm_compute. reflexivity.
  - exists s'. split; [exact Hrun|]. split.
    { destruct Hgone as [Hgone|(k & x & Hk & _)]; [exact Hgone|].
      destruct k; vm_compute in Hk; discriminate Hk. }
    pose proof (Honce Pdf) as (H1 & H2 & H3).
    pose proof (Honce Nxml) as (H4 & H5 & _).
    split; [exact H1|]. split; [exact H2|].
    split; [exact (H3 ("downloads/PMC1/PMC1", "second.PDF") ltac:(left))|].
    split; [exact H4|exact H5].
Defined.

(** The run on an archive that holds [a.pdf] and [PMC1.pdf] at its top:
    both files are where the archive put them. *)
Lemma two_pdfs_run :
  download_article_files Samples.two_pdfs "PMC1" "downloads" Samples.start
  = (Return tt,
     mkState Samples.two_pdfs_unpacked
             ["Downloading OA Package (TGZ): PMC1.tar.gz...";
              "Extracting PMC1.tar.gz..."]
             [("https://www.ncbi.nlm.nih.gov/pmc/utils/oa/oa.fcgi", [("id", PStr "PMC1")]);
              (Samples.package_href, [])]
             true).
Proof. vm_compute. reflexivity. Qed.

(** C4, as stated, fails: in that run [a.pdf] is the first PDF file met,
    and it is not moved to [PMC1.pdf]. *)
Lemma first_pdf_not_renamed :
  ¬ first_renamed "PMC1" "downloads/PMC1" Pdf
      (encountered (walk Samples.two_pdfs Samples.two_pdfs_unpacked "downloads/PMC1"))
      Samples.two_pdfs_unpacked
      (fs (snd (download_article_files Samples.two_pdfs "PMC1" "downloads"
                                       Samples.start))).
Proof.
  intros H.
  destruct (H ("downloads/PMC1", "a.pdf") [("downloads/PMC1", "PMC1.pdf")] "A"
              eq_refl eq_refl) as [Hmoved _].
  vm_compute in Hmoved. discriminate Hmoved.
Qed.

(** * Further properties of search_pmc *)

(** X1.  A transport failure of the search request is not caught: the
    exception of [requests.get], or the one of the status check, leaves
    [search_pmc], and nothing is printed. *)
Theorem search_transport_error_propagates (w : World) (term : string) (max_results : Z)
        (mindate maxdate mi ma : option string) (s : state) (e : exn) :
  search_dates w mindate maxdate = Return (mi, ma) →
  (requests_get w (BASE_URL +:+ "esearch.fcgi") (search_params term max_results mi ma)
   = Raise e
   ∨ ∃ r msg, requests_get w (BASE_URL +:+ "esearch.fcgi")
                           (search_params term max_results mi ma) = Return r
              ∧ http_error r = Some msg ∧ e = RequestException msg) →
  ∃ s', search_pmc w term max_results mindate maxdate s = (Raise e, s')
        ∧ stdout s' = stdout s ∧ fs s' = fs s.
Proof.
  intros Hd H. unfold search_pmc. unfold_prog. rewrite Hd. cbn.
  destruct H as [H|(r & msg & H & He & ->)]; rewrite H; cbn; [|rewrite He; cbn];
    eexists; (split; [reflexivity|]); split; reflexivity.
Qed.

Lemma search_transport_error_propagates_witness :
  fst (search_pmc Samples.unreachable "cancer" 5 (Some "2024/01/01") (Some "2024/01/31")
                  Samples.start)
  = Raise (RequestException "Connection refused")
  ∧ fst (search_pmc Samples.rejecting "cancer" 5 (Some "2024/01/01") (Some "2024/01/31")
                    Samples.start)
    = Raise (RequestException "404 Client Error: Not Found").
Proof.
  split.
  - destruct (search_transport_error_propagates
                Samples.unreachable "cancer" 5
                (Some "2024/01/01") (Some "2024/01/31")
                (Some "2024/01/01") (Some "2024/01/31") Samples.start
                (RequestException "Connection refused") eq_refl (or_introl eq_refl))
      as (s' & H & _).
    exact (f_equal fst H).
  - destruct (search_transport_error_propagates
                Samples.rejecting "cancer" 5
                (Some "2024/01/01") (Some "2024/01/31")
                (Some "2024/01/01") (Some "2024/01/31") Samples.start
                (RequestException "404 Client Error: Not Found") eq_refl)
      as (s' & H & _).
    + right. eexists _, _. repeat split; reflexivity.
    + exact (f_equal fst H).
Defined.

(** X2.  Only a missing key is forgiven.  When the body is JSON but not
    an object, or its [esearchresult] is not an object, the subscript
    raises [TypeError], which the handler for [KeyError] lets through. *)
Theorem search_non_object_raises (w : World) (term : string) (max_results : Z)
        (mindate maxdate mi ma : option string) (s : state) (r : Response)
        (data : Json.value) :
  search_dates w mindate maxdate = Return (mi, ma) →
  requests_get w (BASE_URL +:+ "esearch.fcgi") (search_params term max_results mi ma)
  = Return r →
  http_error r = None →
  json r = Return data →
  (is_dict data = false
   ∨ ∃ x, getitem data "esearchresult" = Return x ∧ is_dict x = false) →
  ∃ s', search_pmc w term max_results mindate maxdate s = (Raise TypeError, s')
        ∧ stdout s' = stdout s.
Proof.
  intros Hd Hr He Hj H. unfold search_pmc. unfold_prog.
  rewrite Hd. cbn. rewrite Hr, He. cbn. rewrite Hj. cbn.
  destruct H as [H|(x & Hx & H)].
  - destruct data; try discriminate H; cbn; eexists; split; reflexivity.
  - rewrite Hx. cbn. destruct x; try discriminate H; cbn; eexists; split; reflexivity.
Qed.

Lemma search_non_object_raises_witness :
  fst (search_pmc (Samples.answering (JList [JStr "123"])) "cancer" 5
                  (Some "2024/01/01") (Some "2024/01/31") Samples.start)
  = Raise TypeError
  ∧ fst (search_pmc (Samples.answering (JDict {[ "esearchresult" := JList [] ]}))
                    "cancer" 5 (Some "2024/01/01") (Some "2024/01/31") Samples.start)
    = Raise TypeError.
Proof.
  split.
  - destruct (search_non_object_raises
                (Samples.answering (JList [JStr "123"])) "cancer" 5
                (Some "2024/01/01") (Some "2024/01/31")
                (Some "2024/01/01") (Some "2024/01/31") Samples.start
                _ (JList [JStr "123"]) eq_refl eq_refl eq_refl eq_refl
                (or_introl eq_refl)) as (s' & H & _).
    exact (f_equal fst H).
  - destruct (search_non_object_raises
                (Samples.answering (JDict {[ "esearchresult" := JList [] ]})) "cancer" 5
                (Some "2024/01/01") (Some "2024/01/31")
                (Some "2024/01/01") (Some "2024/01/31") Samples.start
                _ (JDict {[ "esearchresult" := JList [] ]})
                eq_refl eq_refl eq_refl eq_refl) as (s' & H & _).
    + right. exists (JList []). split; [vm_compute|]; reflexivity.
    + exact (f_equal fst H).
Defined.



(** X4.  Whatever the answer, [search_pmc] leaves the file system alone
    and sends at most one request, to the search address. *)
Theorem search_leaves_files_alone (w : World) (term : string) (max_results : Z)
        (mindate maxdate : option string) (s : state) :
  let s' := snd (search_pmc w term max_results mindate maxdate s) in
  fs s' = fs s
  ∧ downloaded_something s' = downloaded_something s
  ∧ (sent s' = sent s
     ∨ ∃ ps, sent s' = sent s ++ [(BASE_URL +:+ "esearch.fcgi", ps)]).
Proof.
  cbv zeta. unfold search_pmc. unfold_prog.
  destruct (search_dates w mindate maxdate) as [[mi ma]|e]; cbn; [|by auto].
  destruct (requests_get w _ _) as [r|e]; cbn; [|by eauto].
  destruct (http_error r); cbn; [by eauto|].
  destruct (json r) as [data|e]; cbn; [|by eauto].
  destruct (getitem data "esearchresult") as [x|e]; cbn.
  - destruct (getitem x "idlist") as [y|e]; cbn; [by eauto|].
    destruct (is_KeyError e); cbn; by eauto.
  - destruct (is_KeyError e); cbn; by eauto.
Qed.

(** * Further properties of get_pmc_metadata *)

(** X5.  An empty id list gives an empty result without any request; a
    non-empty one sends exactly one request, with the ids joined by commas,
    whatever comes back, and leaves the file system alone. *)
Theorem metadata_one_batched_request (w : World) (id_list : list string) (s : state) :
  match id_list with
  | [] => get_pmc_metadata w id_list s = (Return [], s)
  | _ :: _ =>
      sent (snd (get_pmc_metadata w id_list s)) = sent s ++ [efetch_request id_list]
      ∧ fs (snd (get_pmc_metadata w id_list s)) = fs s
  end.
Proof.
  destruct id_list as [|i rest]; [reflexivity|].
  unfold get_pmc_metadata. unfold_prog.
  destruct (requests_get w _ _) as [r|e]; cbn; [|done].
  destruct (http_error r); cbn; [done|].
  destruct (fromstring w (content r)); cbn; done.
Qed.

(** X6.  A body that does not parse as XML gives the empty list, after
    one line that says so; nothing is raised. *)
Theorem metadata_unparsable_body (w : World) (id_list : list string) (s : state)
        (r : Response) :
  id_list ≠ [] →
  requests_get w (BASE_URL +:+ "efetch.fcgi")
               [("db", PStr "pmc"); ("id", PStr (join "," id_list)); ("retmode", PStr "xml")]
  = Return r →
  http_error r = None →
  fromstring w (content r) = None →
  ∃ s', get_pmc_metadata w id_list s = (Return [], s')
        ∧ stdout s' = stdout s ++ ["Failed to parse XML response"].
Proof.
  intros Hne Hr He Hp. destruct id_list as [|i rest]; [done|].
  unfold get_pmc_metadata. unfold_prog. rewrite Hr. cbn. rewrite He. cbn. rewrite Hp.
  cbn. eexists. split; reflexivity.
Qed.

Lemma metadata_unparsable_body_witness :
  ∃ s', get_pmc_metadata (Samples.answering JNull) ["123"; "456"] Samples.start
        = (Return [], s')
        ∧ stdout s' = ["Failed to parse XML response"].
Proof.
  refine (metadata_unparsable_body (Samples.answering JNull) ["123"; "456"]
            Samples.start _ _ eq_refl eq_refl eq_refl).
  discriminate.
Defined.

(** X7.  A transport failure of the fetch request is not caught: the
    exception leaves [get_pmc_metadata] and nothing is printed. *)
Theorem metadata_transport_error_propagates (w : World) (id_list : list string)
        (s : state) (e : exn) :
  id_list ≠ [] →
  (requests_get w (BASE_URL +:+ "efetch.fcgi")
                [("db", PStr "pmc"); ("id", PStr (join "," id_list)); ("retmode", PStr "xml")]
   = Raise e
   ∨ ∃ r msg, requests_get w (BASE_URL +:+ "efetch.fcgi")
                [("db", PStr "pmc"); ("id", PStr (join "," id_list)); ("retmode", PStr "xml")]
              = Return r
              ∧ http_error r = Some msg ∧ e = RequestException msg) →
  ∃ s', get_pmc_metadata w id_list s = (Raise e, s') ∧ stdout s' = stdout s.
Proof.
  intros Hne H. destruct id_list as [|i rest]; [done|].
  unfold get_pmc_metadata. unfold_prog.
  destruct H as [H|(r & msg & H & He & ->)]; rewrite H; cbn; [|rewrite He; cbn];
    eexists; split; reflexivity.
Qed.

Lemma metadata_transport_error_propagates_witness :
  ∃ s', get_pmc_metadata Samples.unreachable ["123"] Samples.start
        = (Raise (RequestException "Connection refused"), s')
        ∧ stdout s' = [].
Proof.
  refine (metadata_transport_error_propagates Samples.unreachable ["123"] Samples.start
            (RequestException "Connection refused") _ (or_introl eq_refl)).
  discriminate.
Defined.

Lemma article_record_raises (article : Element) (e : exn) :
  article_record article = Raise e → e = AttributeError ∧ ¬ id_has_text article.
Proof.
  unfold article_record, id_has_text, article_pmcid.
  destruct (find article (Descendant "article-meta")) as [meta|]; [|discriminate].
  destruct (find meta _) as [n|]; [|discriminate].
  destruct (text n); cbn.
  - destruct (startswith _ _); discriminate.
  - intros [= <-]. split; [done|]. by intros [? ?].
Qed.

Lemma article_record_returns (article : Element) :
  id_has_text article → ∃ r, article_record article = Return r.
Proof.
  unfold article_record, id_has_text, article_pmcid.
  destruct (find article (Descendant "article-meta")) as [meta|]; [|by eexists].
  destruct (find meta _) as [n|]; [|by eexists].
  intros [t ->]. destruct (startswith _ _); by eexists.
Qed.

Lemma articles_loop_outcome (nodes : list Element) :
  ∀ articles,
    (Forall id_has_text nodes → ∃ result, articles_loop nodes articles = Return result)
    ∧ (¬ Forall id_has_text nodes → articles_loop nodes articles = Raise AttributeError).
Proof.
  induction nodes as [|a rest IH]; intros articles.
  - split; [by eexists|]. intros H. destruct H. constructor.
  - cbn [articles_loop]. split.
    + intros H. apply Forall_cons in H as [Ha Hrest].
      destruct (article_record_returns a Ha) as [r Hr]. rewrite Hr. cbn.
      destruct r; by apply IH.
    + intros H. destruct (article_record a) as [r|e] eqn:Hr; cbn.
      * assert (¬ Forall id_has_text rest) as Hrest.
        { intros Hrest. apply H. constructor; [|done].
          unfold id_has_text. unfold article_record, article_pmcid in Hr.
          destruct (find a (Descendant "article-meta")) as [meta|]; [|done].
          destruct (find meta _) as [n|]; [|done].
          destruct (text n); [by eexists|discriminate]. }
        destruct r; by apply IH.
      * by destruct (article_record_raises a e Hr) as [-> _].
Qed.

(** X8.  The articles are parsed all or nothing.  When every [pmcid]
    node has a text the parse returns; when one article has a [pmcid] node
    without text, [startswith] fails on [None] and the whole parse raises
    [AttributeError], whatever the other articles hold. *)
Theorem metadata_fails_on_empty_id_node (root : Element) :
  (Forall id_has_text (findall root (Descendant "article")) →
   ∃ result, parse_articles root = Return result)
  ∧ (¬ Forall id_has_text (findall root (Descendant "article")) →
     parse_articles root = Raise AttributeError).
Proof. apply articles_loop_outcome. Qed.

Lemma metadata_fails_on_empty_id_node_witness :
  parse_articles
    (Samples.articleset
       [Samples.article_with [Samples.pmcid_node "123"] [];
        Samples.article_with [Samples.pmcid_node_empty] []])
  = Raise AttributeError.
Proof.
  apply (proj2 (metadata_fails_on_empty_id_node _)).
  intros H. apply Forall_cons in H as [_ H]. apply Forall_cons in H as [H _].
  destruct H as [t H]. discriminate H.
Defined.

Lemma keywords_loop_omap (kwds : list Element) :
  ∀ keywords, keywords_loop kwds keywords = keywords ++ omap keyword_of kwds.
Proof.
  induction kwds as [|kw rest IH]; intros keywords.
  - cbn. by rewrite app_nil_r.
  - change (omap keyword_of (kw :: rest))
      with (match keyword_of kw with
            | Some k => k :: omap keyword_of rest
            | None => omap keyword_of rest
            end).
    cbn [keywords_loop]. unfold keyword_of at 1.
    destruct (text kw) as [[|c t]|]; rewrite IH, <- ?app_assoc; reflexivity.
Qed.

Lemma keyword_of_nonempty (kw : Element) (k : string) :
  keyword_of kw = Some k → k ≠ "".
Proof.
  unfold keyword_of. destruct (text kw) as [[|c t]|]; try discriminate.
  by intros [= <-].
Qed.

Lemma authors_loop_omap (contribs : list Element) :
  ∀ authors, authors_loop contribs authors = authors ++ omap author_of contribs.
Proof.
  induction contribs as [|c rest IH]; intros authors.
  - cbn. by rewrite app_nil_r.
  - change (omap author_of (c :: rest))
      with (match author_of c with
            | Some x => x :: omap author_of rest
            | None => omap author_of rest
            end).
    cbn [authors_loop]. unfold author_of at 1.
    destruct (find c (Descendant "surname")) as [s|];
      [destruct (find c (Descendant "given-names")) as [g|]|];
      rewrite IH, <- ?app_assoc; reflexivity.
Qed.

Lemma article_record_fields (article : Element) (a : Article) :
  article_record article = Return (Some a) →
  ∃ meta,
    find article (Descendant "article-meta") = Some meta
    ∧ title a = article_title meta
    ∧ abstract a = article_abstract meta
    ∧ mesh_terms a = article_keywords meta
    ∧ authors a = article_authors meta
    ∧ references a = article_references article
    ∧ journal a = article_journal article
    ∧ pub_type a = article_pub_type article.
Proof.
  unfold article_record.
  destruct (find article (Descendant "article-meta")) as [meta|]; [|discriminate].
  destruct (article_pmcid meta); [|discriminate]. cbn. intros [= <-].
  exists meta. repeat split.
Qed.

(** X9.  The keywords of a record are the texts of the [kwd] nodes of the
    metadata, in document order, without the nodes that have no text or an
    empty one: no keyword is empty. *)
Theorem keywords_are_nonempty_texts (article : Element) (a : Article) :
  article_record article = Return (Some a) →
  Forall (fun k => k ≠ "") (mesh_terms a)
  ∧ ∃ meta, find article (Descendant "article-meta") = Some meta
            ∧ mesh_terms a = omap keyword_of (findall meta (Descendant "kwd")).
Proof.
  intros H. destruct (article_record_fields _ _ H) as (meta & Hm & _ & _ & Hk & _).
  assert (mesh_terms a = omap keyword_of (findall meta (Descendant "kwd"))) as Heq.
  { rewrite Hk. unfold article_keywords. by rewrite keywords_loop_omap. }
  split; [|by exists meta].
  rewrite Heq. apply Forall_forall. intros k Hin.
  apply list_elem_of_omap in Hin as (kw & _ & Hkw).
  by apply (keyword_of_nonempty kw).
Qed.

Lemma keywords_are_nonempty_texts_witness :
  ∃ a, article_record
         (Samples.article_with [Samples.pmcid_node "123"; Samples.kwd_group] [])
       = Return (Some a)
       ∧ mesh_terms a = ["cancer"; "genomics"]
       ∧ Forall (fun k => k ≠ "") (mesh_terms a).
Proof.
  set (article := Samples.article_with _ _).
  destruct (article_record article) as [[a|]|e] eqn:Ha; try discriminate Ha.
  exists a. destruct (keywords_are_nonempty_texts article a Ha) as [Hne (meta & Hm & Hk)].
  split; [reflexivity|]. split; [|exact Hne].
  vm_compute in Hm. injection Hm as <-. exact Hk.
Defined.

(** X10.  The authors of a record follow the author contributors that
    have a surname, one entry each and in document order: surname and given
    names joined by a comma and a space, or the surname text alone; a
    contributor without surname gives no entry. *)
Theorem authors_follow_surnames (article : Element) (a : Article) :
  article_record article = Return (Some a) →
  ∃ meta,
    find article (Descendant "article-meta") = Some meta
    ∧ authors a
      = omap author_of (findall meta (DescendantAttr "contrib" "contrib-type" "author"))
    ∧ length (authors a)
      = length (List.filter
                  (fun c => bool_decide (is_Some (find c (Descendant "surname"))))
                  (findall meta (DescendantAttr "contrib" "contrib-type" "author"))).
Proof.
  intros H. destruct (article_record_fields _ _ H) as (meta & Hm & _ & _ & _ & Ha & _).
  exists meta. split; [exact Hm|].
  assert (authors a = omap author_of
                        (findall meta (DescendantAttr "contrib" "contrib-type" "author")))
    as Heq.
  { rewrite Ha. unfold article_authors. by rewrite authors_loop_omap. }
  split; [exact Heq|]. rewrite Heq.
  generalize (findall meta (DescendantAttr "contrib" "contrib-type" "author")).
  intros l. induction l as [|c l IH]; [done|].
  change (omap author_of (c :: l))
    with (match author_of c with
          | Some x => x :: omap author_of l
          | None => omap author_of l
          end).
  cbn [List.filter]. unfold author_of at 1.
  destruct (find c (Descendant "surname")) as [s|].
  - rewrite bool_decide_eq_true_2 by eauto.
    destruct (find c (Descendant "given-names")); cbn [length]; by rewrite IH.
  - rewrite bool_decide_eq_false_2 by (intros [? ?]; discriminate). exact IH.
Qed.

Lemma authors_follow_surnames_witness :
  ∃ a, article_record
         (Samples.article_with [Samples.pmcid_node "123"; Samples.contrib_group] [])
       = Return (Some a)
       ∧ authors a = [Some "Smith, John"; Some "Consortium"].
Proof.
  set (article := Samples.article_with _ _).
  destruct (article_record article) as [[a|]|e] eqn:Ha; try discriminate Ha.
  exists a. destruct (authors_follow_surnames article a Ha) as (meta & Hm & Hk & _).
  split; [reflexivity|].
  vm_compute in Hm. injection Hm as <-. exact Hk.
Defined.

Lemma lstrip_head (s : string) :
  match lstrip s with
  | EmptyString => True
  | String c _ => isspace c = false
  end.
Proof.
  induction s as [|c s IH]; [done|]. simpl.
  destruct (isspace c) eqn:E; [exact IH|exact E].
Qed.

Lemma lstrip_fixed (s : string) :
  match s with
  | EmptyString => True
  | String c _ => isspace c = false
  end → lstrip s = s.
Proof. destruct s as [|c s]; [done|]. simpl. by intros ->. Qed.

Lemma rstrip_head (s : string) :
  match s with
  | EmptyString => True
  | String c _ => isspace c = false
  end →
  match rstrip s with
  | EmptyString => s = EmptyString
  | String c _ => isspace c = false
  end.
Proof.
  destruct s as [|c s]; [done|]. simpl. intros Hc.
  destruct (rstrip s); [by rewrite Hc|exact Hc].
Qed.

Lemma rstrip_idempotent (s : string) : rstrip (rstrip s) = rstrip s.
Proof.
  induction s as [|c s IH]; [done|]. simpl.
  destruct (rstrip s) as [|d r] eqn:E.
  - destruct (isspace c) eqn:Hc; [done|]. simpl. by rewrite Hc.
  - change (rstrip (String c (String d r))) with
      (match rstrip (String d r) with
       | EmptyString => if isspace c then EmptyString else String c EmptyString
       | r' => String c r'
       end).
    by rewrite IH.
Qed.

Lemma strip_idempotent (s : string) : strip (strip s) = strip s.
Proof.
  unfold strip.
  assert (lstrip (rstrip (lstrip s)) = rstrip (lstrip s)) as ->.
  { apply lstrip_fixed. pose proof (rstrip_head (lstrip s) (lstrip_head s)) as H.
    destruct (rstrip (lstrip s)); [done|exact H]. }
  apply rstrip_idempotent.
Qed.

Lemma refs_loop_stripped (ref_list : list Element) :
  ∀ refs, Forall (fun r => strip r = r) refs →
          Forall (fun r => strip r = r) (refs_loop ref_list refs).
Proof.
  induction ref_list as [|ref rest IH]; intros refs H; [exact H|].
  cbn [refs_loop]. destruct (ref_citation ref); apply IH; [|exact H].
  apply Forall_app. split; [exact H|]. constructor; [apply strip_idempotent|constructor].
Qed.

(** X11.  The abstract and every reference of a record are free of
    leading and trailing white space: stripping them again changes
    nothing. *)
Theorem texts_are_stripped (article : Element) (a : Article) :
  article_record article = Return (Some a) →
  strip (abstract a) = abstract a
  ∧ Forall (fun r => strip r = r) (references a).
Proof.
  intros H. destruct (article_record_fields _ _ H) as (meta & _ & _ & Hab & _ & _ & Hr & _).
  split.
  - rewrite Hab. unfold article_abstract.
    destruct (find meta (Descendant "abstract")); [apply strip_idempotent|reflexivity].
  - rewrite Hr. apply refs_loop_stripped. constructor.
Qed.

Lemma texts_are_stripped_witness :
  ∃ a, article_record
         (Samples.article_with [Samples.pmcid_node "123"; Samples.abstract_node]
                               [Samples.ref_with_markup])
       = Return (Some a)
       ∧ abstract a = "Background."
       ∧ strip (abstract a) = abstract a
       ∧ Forall (fun r => strip r = r) (references a).
Proof.
  set (article := Samples.article_with _ _).
  destruct (article_record article) as [[a|]|e] eqn:Ha; try discriminate Ha.
  exists a. destruct (texts_are_stripped article a Ha) as [H1 H2].
  split; [reflexivity|]. split; [|split; [exact H1|exact H2]].
  vm_compute in Ha. injection Ha as <-. reflexivity.
Defined.

(** * Further properties of download_article_files *)

(** X12.  When the answer of the open-access service does not parse,
    one line says so and the function returns: nothing is raised, no file
    or directory is touched. *)
Theorem oa_unparsable_body_logged (w : World) (pmcid save_dir : string) (s : state)
        (r : Response) :
  requests_get w "https://www.ncbi.nlm.nih.gov/pmc/utils/oa/oa.fcgi"
               [("id", PStr pmcid)] = Return r →
  http_error r = None →
  fromstring w (content r) = None →
  ∃ s', download_article_files w pmcid save_dir s = (Return tt, s')
        ∧ stdout s' = stdout s ++ ["Failed to parse OA XML for " +:+ pmcid]
        ∧ fs s' = fs s.
Proof.
  intros Hr He Hp. unfold download_article_files, query_oa. unfold_prog.
  rewrite Hr. cbn. rewrite He. cbn. rewrite Hp.
  eexists. split; [reflexivity|]. split; reflexivity.
Qed.

Lemma oa_unparsable_body_logged_witness :
  ∃ s', download_article_files (Samples.answering JNull) "PMC1" "downloads" Samples.start
        = (Return tt, s')
        ∧ stdout s' = ["Failed to parse OA XML for PMC1"]
        ∧ fs s' = Samples.empty_fs.
Proof.
  exact (oa_unparsable_body_logged (Samples.answering JNull) "PMC1" "downloads"
           Samples.start _ eq_refl eq_refl eq_refl).
Defined.

Lemma normalize_href_not_ftp (href : string) :
  startswith (normalize_href href) "ftp://" = false.
Proof.
  unfold normalize_href. destruct (startswith href "ftp://") eqn:H; [|exact H].
  unfold replace. destruct href as [|c h]; [discriminate H|].
  unfold startswith in H. cbn [replace_from]. rewrite H. reflexivity.
Qed.

Lemma normalize_href_nonempty (href : string) :
  href ≠ "" → normalize_href href ≠ "".
Proof.
  unfold normalize_href. destruct (startswith href "ftp://") eqn:H; [|done].
  intros _. unfold replace. destruct href as [|c h]; [discriminate H|].
  unfold startswith in H. cbn [replace_from]. rewrite H. discriminate.
Qed.

Lemma collect_links_step (link : Element) (rest : list Element)
      (links : gmap (option string) string) :
  collect_links (link :: rest) links
  = match get link "href" with
    | Some (String c h) =>
        collect_links rest (<[get link "format" := normalize_href (String c h)]> links)
    | _ => collect_links rest links
    end.
Proof. reflexivity. Qed.

Lemma collect_links_app (l1 l2 : list Element) :
  ∀ links, collect_links (l1 ++ l2) links = collect_links l2 (collect_links l1 links).
Proof.
  induction l1 as [|link l1 IH]; intros links; [reflexivity|].
  cbn [app]. rewrite !collect_links_step.
  destruct (get link "href") as [[|c h]|]; apply IH.
Qed.

Lemma collect_links_invariant (P : string → Prop) (nodes : list Element) :
  (∀ href, href ≠ "" → P (normalize_href href)) →
  ∀ links, map_Forall (fun _ => P) links →
           map_Forall (fun _ => P) (collect_links nodes links).
Proof.
  intros HP. induction nodes as [|link rest IH]; intros links H; [exact H|].
  rewrite collect_links_step. destruct (get link "href") as [[|c h]|]; try by apply IH.
  apply IH. apply map_Forall_insert_2; [|exact H]. by apply HP.
Qed.

(** X13.  No address in the link dictionary starts with [ftp://], and
    none is empty. *)
Theorem links_never_ftp (root : Element) (format : option string) (href : string) :
  collect_links (findall root (Descendant "link")) ∅ !! format = Some href →
  startswith href "ftp://" = false ∧ href ≠ "".
Proof.
  intros H.
  apply (collect_links_invariant
           (fun h => startswith h "ftp://" = false ∧ h ≠ "")
           (findall root (Descendant "link"))) with (i := format) (links := ∅).
  - intros h Hh. split; [apply normalize_href_not_ftp|by apply normalize_href_nonempty].
  - apply map_Forall_empty.
  - exact H.
Qed.

Lemma links_never_ftp_witness :
  collect_links (findall Samples.oa_links (Descendant "link")) ∅ !! Some "tgz"
  = Some Samples.package_href
  ∧ startswith Samples.package_href "ftp://" = false
  ∧ Samples.package_href ≠ "".
Proof.
  assert (collect_links (findall Samples.oa_links (Descendant "link")) ∅ !! Some "tgz"
          = Some Samples.package_href) as H by (vm_compute; reflexivity).
  split; [exact H|].
  exact (links_never_ftp Samples.oa_links (Some "tgz") Samples.package_href H).
Defined.

(** X14.  A later link replaces an earlier one of the same format, and
    leaves the entries of the other formats as they are. *)
Theorem later_link_overrides (before : list Element) (link : Element)
        (links : gmap (option string) string) (c : ascii) (h : string) :
  get link "href" = Some (String c h) →
  collect_links (before ++ [link]) links !! get link "format"
  = Some (normalize_href (String c h))
  ∧ ∀ format, format ≠ get link "format" →
              collect_links (before ++ [link]) links !! format
              = collect_links before links !! format.
Proof.
  intros H. rewrite collect_links_app, collect_links_step, H. cbn [collect_links].
  split; [apply lookup_insert_eq|]. intros format Hne. by apply lookup_insert_ne.
Qed.

Lemma later_link_overrides_witness :
  collect_links [Samples.link "tgz" "ftp://host/a.tar.gz";
                 Samples.link "pdf" "ftp://host/old.pdf";
                 Samples.link "pdf" "ftp://host/new.pdf"] ∅ !! Some "pdf"
  = Some "https://host/new.pdf"
  ∧ collect_links [Samples.link "tgz" "ftp://host/a.tar.gz";
                   Samples.link "pdf" "ftp://host/old.pdf";
                   Samples.link "pdf" "ftp://host/new.pdf"] ∅ !! Some "tgz"
    = Some "https://host/a.tar.gz".
Proof.
  destruct (later_link_overrides
              [Samples.link "tgz" "ftp://host/a.tar.gz";
               Samples.link "pdf" "ftp://host/old.pdf"]
              (Samples.link "pdf" "ftp://host/new.pdf") ∅
              "f"%char "tp://host/new.pdf" eq_refl) as [H1 H2].
  split; [exact H1|].
  etrans; [apply (H2 (Some "tgz")); discriminate|]. vm_compute. reflexivity.
Defined.







Lemma download_links_after_makedirs (w : World) (pmcid save_dir : string) (root : Element)
      (s : state) (made : FS) :
  makedirs (path_join save_dir pmcid) (fs s) = Return made →
  download_links w pmcid save_dir root s
  = (let article_dir := path_join save_dir pmcid in
     let links := collect_links (findall root (Descendant "link")) ∅ in
     _ ← (if bool_decide (is_Some (links !! Some "pdf"))
             || bool_decide (is_Some (links !! Some "xml"))
          then
            _ ← direct_download w pmcid article_dir links "pdf" "pdf";
            direct_download w pmcid article_dir links "xml" "nxml"
          else mret tt);
     d ← get_downloaded;
     _ ← (match negb d, links !! Some "tgz" with
          | true, Some href => download_package w pmcid article_dir href
          | _, _ => mret tt
          end);
     d ← get_downloaded;
     if negb d then
       print ("No accessible files found for " +:+ pmcid +:+ " (might not be Open Access).")
     else mret tt)
      (mkState made (stdout s) (sent s) false).
Proof.
  intros H. unfold download_links, with_fs.
  unfold mbind at 1, prog_bind at 1. rewrite H.
  unfold mbind at 1, prog_bind at 1, set_downloaded. reflexivity.
Qed.

(** X16.  Without a [pdf], [xml] or [tgz] link nothing is requested and
    no file is written: the article directory is made and one line reports
    that no accessible files were found. *)
Theorem no_links_nothing_downloaded (w : World) (pmcid save_dir : string) (root : Element)
        (s : state) (made : FS) :
  makedirs (path_join save_dir pmcid) (fs s) = Return made →
  collect_links (findall root (Descendant "link")) ∅ !! Some "pdf" = None →
  collect_links (findall root (Descendant "link")) ∅ !! Some "xml" = None →
  collect_links (findall root (Descendant "link")) ∅ !! Some "tgz" = None →
  download_links w pmcid save_dir root s
  = (Return tt,
     mkState made
             (stdout s ++ ["No accessible files found for " +:+ pmcid
                             +:+ " (might not be Open Access)."])
             (sent s) false).
Proof.
  intros Hmk Hpdf Hxml Htgz. rewrite (download_links_after_makedirs _ _ _ _ _ _ Hmk).
  cbv zeta. rewrite Hpdf, Hxml, Htgz.
  rewrite bool_decide_eq_false_2 by (intros [? ?]; discriminate). reflexivity.
Qed.

Lemma no_links_nothing_downloaded_witness :
  download_links Samples.unreachable "PMC1" "downloads" (Samples.oa_record [])
                 Samples.start
  = (Return tt,
     mkState (mkFS ∅ {[ "downloads"; "downloads/PMC1" ]})
             ["No accessible files found for PMC1 (might not be Open Access)."]
             [] false).
Proof.
  refine (no_links_nothing_downloaded Samples.unreachable "PMC1" "downloads"
            (Samples.oa_record []) Samples.start
            (mkFS ∅ {[ "downloads"; "downloads/PMC1" ]}) _ _ _ _);
    vm_compute; reflexivity.
Defined.

Lemma download_to_ok (w : World) (href save_path : string) (s : state) (r : Response)
      (written : FS) :
  requests_get w href [] = Return r →
  http_error r = None →
  write_file save_path (join_empty (body_chunks r)) (fs s) = Return written →
  download_to w href save_path s
  = (match stream_error r with Some e => Raise e | None => Return tt end,
     mkState written (stdout s) (sent s ++ [(href, [])]) (downloaded_something s)).
Proof.
  intros Hr He Hw. unfold download_to. unfold_prog. unfold with_fs.
  rewrite Hr. cbn. rewrite He. cbn. rewrite Hw. cbn.
  destruct (stream_error r); reflexivity.
Qed.

Lemma prog_bind_run {A B : Type} (m : prog A) (k : A → prog B) (s : state) :
  (m ≫= k) s
  = match m s with
    | (Return a, s') => k a s'
    | (Raise e, s') => (Raise e, s')
    end.
Proof. reflexivity. Qed.

Lemma download_to_refused (w : World) (href save_path : string) (s : state) (e : exn) :
  requests_get w href [] = Raise e →
  download_to w href save_path s
  = (Raise e, mkState (fs s) (stdout s) (sent s ++ [(href, [])]) (downloaded_something s)).
Proof. intros Hr. unfold download_to. unfold_prog. by rewrite Hr. Qed.

Lemma direct_download_run (w : World) (pmcid article_dir : string)
      (links : gmap (option string) string) (fmt ext href : string) (s : state) :
  links !! Some fmt = Some href →
  direct_download w pmcid article_dir links fmt ext s
  = match download_to w href (path_join article_dir (pmcid +:+ "." +:+ ext))
                      (mkState (fs s)
                               (stdout s ++ ["Downloading " +:+ upper_ascii fmt +:+ " as "
                                               +:+ (pmcid +:+ "." +:+ ext) +:+ "..."])
                               (sent s) (downloaded_something s)) with
    | (Return _, s2) =>
        (Return tt,
         mkState (fs s2) (stdout s2 ++ ["Saved " +:+ (pmcid +:+ "." +:+ ext)]) (sent s2) true)
    | (Raise e, s2) =>
        (Return tt,
         mkState (fs s2)
                 (stdout s2 ++ ["Failed to download " +:+ href +:+ ": " +:+ exn_str e])
                 (sent s2) (downloaded_something s2))
    end.
Proof.
  intros H. unfold direct_download. rewrite H.
  unfold mbind, prog_bind, print, try_except, set_downloaded.
  cbn [fs stdout sent downloaded_something].
  destruct (download_to _ _ _ _) as [[[]|e] s2]; reflexivity.
Qed.

(** X17.  When the PDF link is downloaded, the file holds the chunks of
    the body in order, and the archive is not requested, also when there is
    a [tgz] link. *)
Theorem direct_pdf_saved_archive_skipped (w : World) (pmcid save_dir href : string)
        (root : Element) (s : state) (made written : FS) (r : Response) :
  makedirs (path_join save_dir pmcid) (fs s) = Return made →
  collect_links (findall root (Descendant "link")) ∅ !! Some "pdf" = Some href →
  collect_links (findall root (Descendant "link")) ∅ !! Some "xml" = None →
  requests_get w href [] = Return r →
  http_error r = None →
  stream_error r = None →
  write_file (path_join (path_join save_dir pmcid) (pmcid +:+ ".pdf"))
             (join_empty (body_chunks r)) made = Return written →
  download_links w pmcid save_dir root s
  = (Return tt,
     mkState written
             (stdout s ++ ["Downloading PDF as " +:+ (pmcid +:+ ".pdf") +:+ "...";
                           "Saved " +:+ (pmcid +:+ ".pdf")])
             (sent s ++ [(href, [])]) true).
Proof.
  intros Hmk Hpdf Hxml Hr He Hs Hw. rewrite (download_links_after_makedirs _ _ _ _ _ _ Hmk).
  cbv zeta. rewrite Hpdf, Hxml.
  rewrite bool_decide_eq_true_2 by eauto. cbn [orb].
  unfold direct_download. rewrite Hpdf, Hxml.
  change (upper_ascii "pdf") with "PDF".
  unfold mbind, prog_bind, print, try_except, set_downloaded, get_downloaded.
  cbn [fs stdout sent downloaded_something].
  erewrite download_to_ok; [|exact Hr|exact He|exact Hw]. rewrite Hs.
  cbn. rewrite <- app_assoc. reflexivity.
Qed.

Lemma direct_pdf_saved_archive_skipped_witness :
  download_links Samples.pdf_and_archive "PMC1" "downloads"
    (Samples.oa_record
       [Samples.link "pdf" "ftp://ftp.ncbi.nlm.nih.gov/pub/pmc/oa_pdf/aa/bb/main.pdf";
        Samples.link "tgz" "ftp://ftp.ncbi.nlm.nih.gov/pub/pmc/oa_package/aa/bb/PMC1.tar.gz"])
    Samples.start
  = (Return tt,
     mkState (mkFS {[ "downloads/PMC1/PMC1.pdf" := "%PDF-1.7" ]}
                   {[ "downloads"; "downloads/PMC1" ]})
             ["Downloading PDF as PMC1.pdf..."; "Saved PMC1.pdf"]
             [(Samples.pdf_href, [])] true).
Proof.
  refine (direct_pdf_saved_archive_skipped Samples.pdf_and_archive "PMC1" "downloads"
            Samples.pdf_href _ Samples.start
            (mkFS ∅ {[ "downloads"; "downloads/PMC1" ]})
            (mkFS {[ "downloads/PMC1/PMC1.pdf" := "%PDF-1.7" ]}
                  {[ "downloads"; "downloads/PMC1" ]})
            (Samples.body ["%PDF-"; "1.7"]) _ _ _ _ _ _ _);
    vm_compute; reflexivity.
Defined.

(** X18.  A failed PDF download is reported and does not stop the XML
    download that follows it. *)
Theorem failed_pdf_does_not_stop_xml (w : World) (pmcid save_dir pdf_href xml_href : string)
        (root : Element) (s : state) (made written : FS) (r : Response) (e : exn) :
  makedirs (path_join save_dir pmcid) (fs s) = Return made →
  collect_links (findall root (Descendant "link")) ∅ !! Some "pdf" = Some pdf_href →
  collect_links (findall root (Descendant "link")) ∅ !! Some "xml" = Some xml_href →
  requests_get w pdf_href [] = Raise e →
  requests_get w xml_href [] = Return r →
  http_error r = None →
  stream_error r = None →
  write_file (path_join (path_join save_dir pmcid) (pmcid +:+ ".nxml"))
             (join_empty (body_chunks r)) made = Return written →
  download_links w pmcid save_dir root s
  = (Return tt,
     mkState written
             (stdout s ++ ["Downloading PDF as " +:+ (pmcid +:+ ".pdf") +:+ "...";
                           "Failed to download " +:+ pdf_href +:+ ": " +:+ exn_str e;
                           "Downloading XML as " +:+ (pmcid +:+ ".nxml") +:+ "...";
                           "Saved " +:+ (pmcid +:+ ".nxml")])
             (sent s ++ [(pdf_href, []); (xml_href, [])]) true).
Proof.
  intros Hmk Hpdf Hxml Hr1 Hr2 He Hs Hw.
  rewrite (download_links_after_makedirs _ _ _ _ _ _ Hmk).
  cbv zeta. rewrite Hpdf.
  rewrite bool_decide_eq_true_2 by eauto. cbn [orb].
  rewrite !prog_bind_run.
  rewrite (direct_download_run _ _ _ _ _ _ _ _ Hpdf).
  rewrite (download_to_refused _ _ _ _ _ Hr1).
  rewrite (direct_download_run _ _ _ _ _ _ _ _ Hxml).
  erewrite download_to_ok; [|exact Hr2|exact He|exact Hw]. rewrite Hs.
  cbn. rewrite <- !app_assoc. reflexivity.
Qed.

Lemma failed_pdf_does_not_stop_xml_witness :
  download_links Samples.pdf_times_out "PMC1" "downloads"
    (Samples.oa_record [Samples.link "pdf" Samples.pdf_href;
                        Samples.link "xml" Samples.xml_href])
    Samples.start
  = (Return tt,
     mkState (mkFS {[ "downloads/PMC1/PMC1.nxml" := "<article/>" ]}
                   {[ "downloads"; "downloads/PMC1" ]})
             ["Downloading PDF as PMC1.pdf...";
              "Failed to download " +:+ Samples.pdf_href +:+ ": Read timed out";
              "Downloading XML as PMC1.nxml...";
              "Saved PMC1.nxml"]
             [(Samples.pdf_href, []); (Samples.xml_href, [])] true).
Proof.
  refine (failed_pdf_does_not_stop_xml Samples.pdf_times_out "PMC1" "downloads"
            Samples.pdf_href Samples.xml_href _ Samples.start
            (mkFS ∅ {[ "downloads"; "downloads/PMC1" ]})
            (mkFS {[ "downloads/PMC1/PMC1.nxml" := "<article/>" ]}
                  {[ "downloads"; "downloads/PMC1" ]})
            (Samples.body ["<article/>"]) (RequestException "Read timed out")
            _ _ _ _ _ _ _ _);
    vm_compute; reflexivity.
Defined.



(** X20.  When the stream of the only link breaks, the chunks received
    so far stay in the file, the failure is reported, and the function ends
    with the line that no accessible files were found. *)
Theorem broken_stream_leaves_partial_file (w : World) (pmcid save_dir href : string)
        (root : Element) (s : state) (made written : FS) (r : Response) (e : exn) :
  makedirs (path_join save_dir pmcid) (fs s) = Return made →
  collect_links (findall root (Descendant "link")) ∅ !! Some "pdf" = Some href →
  collect_links (findall root (Descendant "link")) ∅ !! Some "xml" = None →
  collect_links (findall root (Descendant "link")) ∅ !! Some "tgz" = None →
  requests_get w href [] = Return r →
  http_error r = None →
  stream_error r = Some e →
  write_file (path_join (path_join save_dir pmcid) (pmcid +:+ ".pdf"))
             (join_empty (body_chunks r)) made = Return written →
  download_links w pmcid save_dir root s
  = (Return tt,
     mkState written
             (stdout s ++ ["Downloading PDF as " +:+ (pmcid +:+ ".pdf") +:+ "...";
                           "Failed to download " +:+ href +:+ ": " +:+ exn_str e;
                           "No accessible files found for " +:+ pmcid
                             +:+ " (might not be Open Access)."])
             (sent s ++ [(href, [])]) false)
  ∧ files written !! path_join (path_join save_dir pmcid) (pmcid +:+ ".pdf")
    = Some (join_empty (body_chunks r)).
Proof.
  intros Hmk Hpdf Hxml Htgz Hr He Hs Hw. split.
  - rewrite (download_links_after_makedirs _ _ _ _ _ _ Hmk).
    cbv zeta. rewrite Hpdf, Hxml, Htgz.
    rewrite bool_decide_eq_true_2 by eauto. cbn [orb].
    unfold direct_download. rewrite Hpdf, Hxml.
    change (upper_ascii "pdf") with "PDF".
    unfold mbind, prog_bind, print, try_except, set_downloaded, get_downloaded.
    cbn [fs stdout sent downloaded_something].
    erewrite download_to_ok; [|exact Hr|exact He|exact Hw]. rewrite Hs.
    cbn. rewrite <- !app_assoc. reflexivity.
  - unfold write_file in Hw. repeat case_match; try discriminate.
    injection Hw as <-. cbn. apply lookup_insert_eq.
Qed.

Lemma broken_stream_leaves_partial_file_witness :
  download_links Samples.pdf_breaks_off "PMC1" "downloads"
    (Samples.oa_record [Samples.link "pdf" Samples.pdf_href]) Samples.start
  = (Return tt,
     mkState (mkFS {[ "downloads/PMC1/PMC1.pdf" := "%PDF-" ]}
                   {[ "downloads"; "downloads/PMC1" ]})
             ["Downloading PDF as PMC1.pdf...";
              "Failed to download " +:+ Samples.pdf_href +:+ ": Connection broken";
              "No accessible files found for PMC1 (might not be Open Access)."]
             [(Samples.pdf_href, [])] false).
Proof.
  refine (proj1 (broken_stream_leaves_partial_file Samples.pdf_breaks_off "PMC1"
                   "downloads" Samples.pdf_href _ Samples.start
                   (mkFS ∅ {[ "downloads"; "downloads/PMC1" ]})
                   (mkFS {[ "downloads/PMC1/PMC1.pdf" := "%PDF-" ]}
                         {[ "downloads"; "downloads/PMC1" ]})
                   (mkResponse None "<OA/>" (Raise (ValueError "not JSON")) ["%PDF-"]
                               (Some (RequestException "Connection broken")))
                   (RequestException "Connection broken")
                   _ _ _ _ _ _ _ _));
    vm_compute; reflexivity.
Defined.

Lemma rename_met_preserves (P : FS → Prop) (pmcid article_dir : string) :
  (∀ f src tgt data,
      P f → files f !! src = Some data → exists_ f tgt = false →
      P (mkFS (<[tgt := data]> (delete src (files f))) (dirs f))) →
  ∀ met s, listing_ok (fs s) met → P (fs s) →
           ∃ s', rename_met pmcid article_dir met s = (Return tt, s')
                 ∧ P (fs s') ∧ sent s' = sent s.
Proof.
  intros Hstep. induction met as [|x rest IH]; intros s [Hnd Hall] HP.
  - by exists s.
  - cbn [List.map] in Hnd. apply NoDup_cons in Hnd as [Hx Hnd].
    apply Forall_cons in Hall as [[data Hdata] Hall].
    cbn [rename_met]. rewrite prog_bind_run, rename_file_kind.
    destruct (kind_of (snd x)) as [k|]; [|by apply IH].
    rewrite rename_to_run.
    destruct (exists_ (fs s) (target pmcid article_dir k)) eqn:Hex; [by apply IH|].
    change (path_join (fst x) (snd x)) with (source x). rewrite Hdata.
    set (s1 := mkState _ _ _ _).
    assert (files (fs s) !! target pmcid article_dir k = None) as Hfree
        by (by apply exists_false).
    destruct (IH s1) as (s' & Hrun & HP' & Hsent).
    + split; [exact Hnd|]. rewrite Forall_forall in *. intros y Hy.
      subst s1. cbn. rewrite moved_lookup; [by apply Hall| |].
      * intros Heq. apply Hx. rewrite <- Heq.
        apply list_elem_of_In, in_map, list_elem_of_In, Hy.
      * destruct (Hall y Hy) as [d Hd]. congruence.
    + subst s1. cbn. by apply Hstep.
    + exists s'. split; [exact Hrun|]. split; [exact HP'|]. exact Hsent.
Qed.

(** X21.  On a listing that fits the file system the renaming loop
    always returns, keeps the number of files and the directories, loses no
    content, and sends no request. *)
Theorem renaming_loses_no_file (pmcid article_dir : string)
        (entries : list (string * list string)) (s : state) :
  listing_ok (fs s) (encountered entries) →
  ∃ s',
    rename_walk pmcid article_dir entries s = (Return tt, s')
    ∧ size (files (fs s')) = size (files (fs s))
    ∧ dirs (fs s') = dirs (fs s)
    ∧ (∀ p data, files (fs s) !! p = Some data →
                 ∃ q, files (fs s') !! q = Some data)
    ∧ sent s' = sent s.
Proof.
  intros Hok. rewrite rename_walk_met.
  destruct (rename_met_preserves
              (fun f => size (files f) = size (files (fs s))
                        ∧ dirs f = dirs (fs s)
                        ∧ ∀ p data, files (fs s) !! p = Some data →
                                    ∃ q, files f !! q = Some data)
              pmcid article_dir) with (met := encountered entries) (s := s)
    as (s' & Hrun & (H1 & H2 & H3) & H4).
  - intros f src tgt data (Hsize & Hdirs & Hkeep) Hsrc Hex. cbn.
    apply exists_false in Hex. split; [|split; [exact Hdirs|]].
    + rewrite map_size_insert_None by (rewrite lookup_delete_ne; congruence).
      rewrite map_size_delete_Some by eauto.
      assert (size (files f) ≠ 0) as Hne.
      { intros Hz. apply map_size_empty_inv in Hz. rewrite Hz in Hsrc.
        by rewrite lookup_empty in Hsrc. }
      lia.
    + intros p d Hp. destruct (Hkeep p d Hp) as [q Hq].
      destruct (decide (q = src)) as [->|Hne].
      * exists tgt. rewrite lookup_insert_eq. congruence.
      * exists q. rewrite moved_lookup; [exact Hq|exact Hne|congruence].
  - exact Hok.
  - split; [done|]. split; [done|]. eauto.
  - by exists s'.
Qed.

Lemma renaming_loses_no_file_witness :
  ∃ s',
    rename_walk "PMC1" "downloads/PMC1"
                (walk Samples.pdf_and_xml Samples.pdf_and_xml_unpacked "downloads/PMC1")
                (mkState Samples.pdf_and_xml_unpacked [] [] true)
    = (Return tt, s')
    ∧ size (files (fs s')) = 3
    ∧ ∃ q, files (fs s') !! q = Some "Q".
Proof.
  destruct (renaming_loses_no_file "PMC1" "downloads/PMC1"
              (walk Samples.pdf_and_xml Samples.pdf_and_xml_unpacked "downloads/PMC1")
              (mkState Samples.pdf_and_xml_unpacked [] [] true))
    as (s' & Hrun & Hsize & _ & Hkeep & _).
  - split; apply (bool_decide_unpack _); vm_compute; reflexivity.
  - exists s'. split; [exact Hrun|]. split; [exact Hsize|].
    apply (Hkeep "downloads/PMC1/PMC1/second.PDF" "Q"). vm_compute. reflexivity.
Defined.

Lemma basename_from_append (a b : string) :
  ∀ acc, basename_from acc (a +:+ b) = basename_from (basename_from acc a) b.
Proof.
  induction a as [|c a IH]; intros acc; [reflexivity|].
  change (String c a +:+ b) with (String c (a +:+ b)). cbn [basename_from].
  destruct (bool_decide (c = slash)); apply IH.
Qed.

Lemma basename_from_no_slash (n : string) :
  has_slash n = false → ∀ acc, basename_from acc n = acc +:+ n.
Proof.
  induction n as [|c n IH]; intros H acc.
  - cbn. induction acc as [|d acc IHa]; [done|].
    change (String d acc +:+ "") with (String d (acc +:+ "")). by rewrite <- IHa.
  - cbn in H. apply orb_false_iff in H as [Hc Hn]. cbn [basename_from]. rewrite Hc.
    rewrite (IH Hn). by rewrite append_assoc.
Qed.

Lemma has_slash_append (a b : string) :
  has_slash (a +:+ b) = has_slash a || has_slash b.
Proof.
  induction a as [|c a IH]; [reflexivity|].
  change (String c a +:+ b) with (String c (a +:+ b)). cbn. rewrite IH.
  by rewrite orb_assoc.
Qed.

Lemma basename_from_has_no_slash (p : string) :
  ∀ acc, has_slash acc = false → has_slash (basename_from acc p) = false.
Proof.
  induction p as [|c p IH]; intros acc H; [exact H|].
  cbn [basename_from]. destruct (bool_decide (c = slash)) eqn:Hc; apply IH; [done|].
  rewrite has_slash_append, H. cbn. by rewrite Hc.
Qed.

(** X22.  The name under which the archive is stored has no slash, and
    it is the last segment of the path the archive is written to. *)
Theorem archive_name_is_last_segment (article_dir href : string) :
  has_slash (basename href) = false
  ∧ basename (path_join article_dir (basename href)) = basename href.
Proof.
  assert (has_slash (basename href) = false) as Hn
      by (by apply basename_from_has_no_slash).
  split; [exact Hn|]. set (n := basename href) in *.
  assert (startswith n "/" = false) as Hs.
  { destruct n as [|c n']; [done|]. cbn in Hn. apply orb_false_iff in Hn as [Hc _].
    apply bool_decide_eq_false in Hc. unfold startswith.
    change (String.prefix "/" (String c n'))
      with (if ascii_dec "/" c then String.prefix "" n' else false).
    destruct (ascii_dec "/" c) as [<-|]; [by destruct Hc|reflexivity]. }
  unfold path_join. rewrite Hs. unfold basename.
  destruct (bool_decide (article_dir = "") || endswith article_dir "/") eqn:E.
  - rewrite basename_from_append, (basename_from_no_slash n Hn).
    apply orb_true_iff in E as [E|E].
    + apply bool_decide_eq_true in E. by subst.
    + apply endswith_iff in E as [pre ->].
      rewrite basename_from_append. reflexivity.
  - rewrite basename_from_append.
    change ("/" +:+ n) with (String slash n). cbn [basename_from].
    rewrite bool_decide_eq_true_2 by done.
    rewrite (basename_from_no_slash n Hn). reflexivity.
Qed.

Lemma download_to_rejected (w : World) (href save_path : string) (s : state)
      (r : Response) (msg : string) :
  requests_get w href [] = Return r →
  http_error r = Some msg →
  download_to w href save_path s
  = (Raise (RequestException msg),
     mkState (fs s) (stdout s) (sent s ++ [(href, [])]) (downloaded_something s)).
Proof. intros Hr He. unfold download_to. unfold_prog. rewrite Hr. cbn. by rewrite He. Qed.

(** X23.  When only the archive is on offer and its request fails, the
    failure is reported as a failed package download, nothing is written,
    and the run ends with the line that no accessible files were found. *)
Theorem package_request_failure_reported (w : World) (pmcid save_dir href : string)
        (root : Element) (s : state) (made : FS) (e : exn) :
  makedirs (path_join save_dir pmcid) (fs s) = Return made →
  collect_links (findall root (Descendant "link")) ∅ !! Some "pdf" = None →
  collect_links (findall root (Descendant "link")) ∅ !! Some "xml" = None →
  collect_links (findall root (Descendant "link")) ∅ !! Some "tgz" = Some href →
  (requests_get w href [] = Raise e
   ∨ ∃ r msg, requests_get w href [] = Return r
              ∧ http_error r = Some msg ∧ e = RequestException msg) →
  download_links w pmcid save_dir root s
  = (Return tt,
     mkState made
             (stdout s ++ ["Downloading OA Package (TGZ): " +:+ basename href +:+ "...";
                           "Failed to download package " +:+ href +:+ ": " +:+ exn_str e;
                           "No accessible files found for " +:+ pmcid
                             +:+ " (might not be Open Access)."])
             (sent s ++ [(href, [])]) false).
Proof.
  intros Hmk Hpdf Hxml Htgz H. rewrite (download_links_after_makedirs _ _ _ _ _ _ Hmk).
  cbv zeta. rewrite Hpdf, Hxml, Htgz.
  rewrite bool_decide_eq_false_2 by (intros [? ?]; discriminate). cbn [orb].
  unfold download_package.
  unfold mbind, prog_bind, mret, prog_ret, print, try_except, get_downloaded.
  cbn [fs stdout sent downloaded_something negb].
  destruct H as [H|(r & msg & H & He & ->)].
  - rewrite (download_to_refused _ _ _ _ _ H). cbn. rewrite <- !app_assoc. reflexivity.
  - rewrite (download_to_rejected _ _ _ _ _ _ H He). cbn. rewrite <- !app_assoc. reflexivity.
Qed.

Lemma package_request_failure_reported_witness :
  download_links
    (Samples.linked Samples.oa_links (fun _ => Raise (RequestException "Connection refused")))
    "PMC1" "downloads" Samples.oa_links Samples.start
  = (Return tt,
     mkState (mkFS ∅ {[ "downloads"; "downloads/PMC1" ]})
             ["Downloading OA Package (TGZ): PMC1.tar.gz...";
              "Failed to download package " +:+ Samples.package_href
                +:+ ": Connection refused";
              "No accessible files found for PMC1 (might not be Open Access)."]
             [(Samples.package_href, [])] false).
Proof.
  refine (package_request_failure_reported
            (Samples.linked Samples.oa_links
                            (fun _ => Raise (RequestException "Connection refused")))
            "PMC1" "downloads" Samples.package_href Samples.oa_links Samples.start
            (mkFS ∅ {[ "downloads"; "downloads/PMC1" ]})
            (RequestException "Connection refused") _ _ _ _ (or_introl eq_refl));
    vm_compute; reflexivity.
Defined.

(** The renaming loop fails only in [os.rename], on a listed file that is
    not there, and leaves the flag as it was. *)
Lemma rename_met_raises (pmcid article_dir : string) (met : list (string * string)) :
  ∀ s e s',
    rename_met pmcid article_dir met s = (Raise e, s') →
    (∃ x, x ∈ met ∧ e = OSError ("No such file or directory: " +:+ source x))
    ∧ downloaded_something s' = downloaded_something s.
Proof.
  induction met as [|x rest IH]; intros s e s' H; [discriminate H|].
  cbn [rename_met] in H. rewrite prog_bind_run, rename_file_kind in H.
  destruct (kind_of (snd x)) as [k|].
  - rewrite rename_to_run in H.
    destruct (exists_ (fs s) (target pmcid article_dir k)).
    + destruct (IH _ _ _ H) as [(y & Hy & He) Hf].
      split; [|exact Hf]. exists y. split; [by right|exact He].
    + destruct (files (fs s) !! path_join (fst x) (snd x)) as [data|].
      * destruct (IH _ _ _ H) as [(y & Hy & He) Hf].
        split; [|exact Hf]. exists y. split; [by right|exact He].
      * injection H as <- <-. split; [|reflexivity]. exists x. split; [by left|reflexivity].
  - destruct (IH _ _ _ H) as [(y & Hy & He) Hf].
    split; [|exact Hf]. exists y. split; [by right|exact He].
Qed.

(** X24.  A rename that fails after the archive was fetched and unpacked
    is reported as a failed package download; the archive is deleted by
    then and the flag stays set, so the line about no accessible files does
    not follow. *)
Theorem rename_failure_reported_as_download (w : World) (pmcid article_dir href : string)
        (s s3 : state) (r : Response) (fs0 fs1 : FS) (e : exn) :
  let tgz_path := path_join article_dir (basename href) in
  let archive := join_empty (body_chunks r) in
  let fs2 := mkFS (delete tgz_path (files fs1)) (dirs fs1) in
  requests_get w href [] = Return r →
  http_error r = None →
  stream_error r = None →
  write_file tgz_path archive (fs s) = Return fs0 →
  extractall w archive article_dir fs0 = Return fs1 →
  is_Some (files fs1 !! tgz_path) →
  rename_walk pmcid article_dir (walk w fs2 article_dir)
              (mkState fs2
                       (stdout s ++ ["Downloading OA Package (TGZ): "
                                       +:+ basename href +:+ "...";
                                     "Extracting " +:+ basename href +:+ "..."])
                       (sent s ++ [(href, [])]) true)
  = (Raise e, s3) →
  download_package w pmcid article_dir href s
  = (Return tt,
     mkState (fs s3)
             (stdout s3 ++ ["Failed to download package " +:+ href +:+ ": " +:+ exn_str e])
             (sent s3) true)
  ∧ ∃ x, x ∈ encountered (walk w fs2 article_dir)
         ∧ e = OSError ("No such file or directory: " +:+ source x).
Proof.
  intros tgz_path archive fs2 Hget Hhttp Hstream Hwrite Hextract [old Hold] Hrun.
  assert (files fs0 !! tgz_path = Some archive) as Hstored.
  { unfold write_file in Hwrite. repeat case_match; try discriminate.
    injection Hwrite as <-. cbn. apply lookup_insert_eq. }
  pose proof Hrun as Hmet. rewrite rename_walk_met in Hmet.
  apply rename_met_raises in Hmet as [(x & Hx & He) Hflag]. cbn in Hflag.
  split; [|by exists x].
  unfold download_package, download_to, extract_package, unpack, rename_extracted,
    try_except, mbind, prog_bind, print, get_request, lift, raise_for_status, with_fs,
    set_downloaded.
  cbn. rewrite Hget. cbn. rewrite Hhttp. cbn.
  fold tgz_path. fold archive. rewrite Hwrite. cbn. rewrite Hstream. cbn.
  rewrite Hstored. cbn. rewrite Hextract. cbn.
  unfold remove. rewrite Hold. cbn.
  match goal with
  | |- context [rename_walk ?a ?b ?c ?d] =>
      change (rename_walk a b c d)
        with (rename_walk pmcid article_dir (walk w fs2 article_dir)
                (mkState fs2
                   ((stdout s ++ ["Downloading OA Package (TGZ): "
                                    +:+ basename href +:+ "..."])
                      ++ ["Extracting " +:+ basename href +:+ "..."])
                   (sent s ++ [(href, [])]) true))
  end.
  rewrite <- app_assoc. cbn [app]. rewrite Hrun.
  rewrite He, <- Hflag. destruct s3; reflexivity.
Qed.

Lemma rename_failure_reported_as_download_witness :
  download_package
    (Samples.packaged [("a.txt", "A")] (fun top => [(top, ["a.txt"; "ghost.pdf"])]))
    "PMC1" "downloads/PMC1" Samples.package_href Samples.prepared
  = (Return tt,
     mkState (mkFS {[ "downloads/PMC1/a.txt" := "A" ]} {[ "downloads"; "downloads/PMC1" ]})
             ["Downloading OA Package (TGZ): PMC1.tar.gz...";
              "Extracting PMC1.tar.gz...";
              "Failed to download package " +:+ Samples.package_href
                +:+ ": No such file or directory: downloads/PMC1/ghost.pdf"]
             [(Samples.package_href, [])] true).
Proof.
  pose (w := Samples.packaged [("a.txt", "A")]
                              (fun top => [(top, ["a.txt"; "ghost.pdf"])])).
  pose (fs0 := mkFS {[ "downloads/PMC1/PMC1.tar.gz" := "TGZ" ]}
                    {[ "downloads"; "downloads/PMC1" ]}).
  pose (fs1 := Samples.unpack_into "downloads/PMC1" [("a.txt", "A")] fs0).
  refine (proj1 (rename_failure_reported_as_download w "PMC1" "downloads/PMC1"
                   Samples.package_href Samples.prepared
                   (mkState (mkFS {[ "downloads/PMC1/a.txt" := "A" ]}
                                  {[ "downloads"; "downloads/PMC1" ]})
                            ["Downloading OA Package (TGZ): PMC1.tar.gz...";
                             "Extracting PMC1.tar.gz..."]
                            [(Samples.package_href, [])] true)
                   (Samples.body ["TGZ"]) fs0 fs1
                   (OSError "No such file or directory: downloads/PMC1/ghost.pdf")
                   _ _ _ _ _ _ _)).
  - reflexivity.
  - reflexivity.
  - reflexivity.
  - vm_compute. reflexivity.
  - reflexivity.
  - vm_compute. eauto.
  - vm_compute. reflexivity.
Defined.
